(** * mcp_server.py: the JSON-RPC call endpoint and the event stream

    A shallow embedding of [src/python/mcp_server.py]: the POST handler
    [mcp_post] (lines 278-565) and the generator [event_stream] of the
    [/sse] endpoint (lines 165-266).

    Python values that travel through JSON are modelled by [json];
    exceptions by [exn] with their class; a handler body by a function
    of the process-wide observable state [world] (uuid source, clock,
    log sink) returning either a value or a raised exception.

    What libraries outside the repository decide (pydantic's coercions
    and message texts, [json.dumps], the clock) enters as a parameter:
    the record [runtime] for the dispatcher, section variables for the
    stream.  Every theorem holds for all of their instances.  The CORS
    and gzip wrappers of lines 83-91 are not part of the model; the
    timing middleware of lines 93-127 is, and the process serves every
    call behind it. *)

From Stdlib Require Import String Ascii List ZArith Bool Lia Arith.
From Stdlib Require Import Floats.SpecFloat.
Import ListNotations.

Set Warnings "-register-all".
Local Open Scope string_scope.
Local Open Scope Z_scope.

(* ===================================================================== *)
(** ** Python values *)
(* ===================================================================== *)

(** What [json.loads] produces and [json.dumps] consumes.  A [dict] keeps
    insertion order, so it is an association list. *)
Inductive json : Type :=
| JNull
| JBool (b : bool)
| JInt (n : Z)
| JFloat (f : spec_float)
| JStr (s : string)
| JList (items : list json)
| JDict (entries : list (string * json)).

Definition dict := list (string * json).

Fixpoint dict_lookup (key : string) (d : dict) : option json :=
  match d with
  | [] => None
  | (k, v) :: rest => if String.eqb k key then Some v else dict_lookup key rest
  end.

(** [d.get(key)] and [d.get(key, default)]. *)
Definition dict_get (d : dict) (key : string) : json :=
  match dict_lookup key d with Some v => v | None => JNull end.

Definition dict_get_default (d : dict) (key : string) (default : json) : json :=
  match dict_lookup key d with Some v => v | None => default end.

Definition has_key (key : string) (d : dict) : bool :=
  match dict_lookup key d with Some _ => true | None => false end.

(** Truth value testing, as used by [not table] and [params or {}]. *)
Definition truthy (v : json) : bool :=
  match v with
  | JNull => false
  | JBool b => b
  | JInt n => negb (n =? 0)
  | JFloat (S754_zero _) => false
  | JFloat _ => true
  | JStr s => negb (String.eqb s "")
  | JList l => match l with [] => false | _ => true end
  | JDict d => match d with [] => false | _ => true end
  end.

(** [type(v).__name__], as it appears in interpreter messages. *)
Definition type_name (v : json) : string :=
  match v with
  | JNull => "NoneType"
  | JBool _ => "bool"
  | JInt _ => "int"
  | JFloat _ => "float"
  | JStr _ => "str"
  | JList _ => "list"
  | JDict _ => "dict"
  end.

(* ===================================================================== *)
(** ** Exceptions *)
(* ===================================================================== *)

Inductive exn_class : Type :=
| JSONDecodeError
| TypeError
| ValidationError
| NameError
| UnboundLocalError
| AttributeError
| ValueError
| UnicodeEncodeError
| OtherException        (* any further subclass of Exception *)
| CancelledError        (* asyncio.CancelledError: a BaseException *)
| GeneratorExit.        (* raised by aclose(): a BaseException *)

Record exn : Type := mk_exn { exn_class_of : exn_class; exn_str : string }.

(** [isinstance(e, Exception)]: what an [except Exception] clause catches. *)
Definition is_Exception (e : exn) : bool :=
  match exn_class_of e with
  | CancelledError | GeneratorExit => false
  | _ => true
  end.

Definition is_CancelledError (e : exn) : bool :=
  match exn_class_of e with CancelledError => true | _ => false end.

Inductive outcome (A : Type) : Type :=
| Ret (a : A)
| Raise (e : exn).
Arguments Ret {A} a.
Arguments Raise {A} e.

Definition obind {A B} (c : outcome A) (k : A -> outcome B) : outcome B :=
  match c with Ret a => k a | Raise e => Raise e end.

(** The interpreter's own errors, with the text of [str(e)]. *)
Definition name_error (name : string) : exn :=
  mk_exn NameError ("name '" ++ name ++ "' is not defined").

Definition unbound_local_error (name : string) : exn :=
  mk_exn UnboundLocalError
    ("cannot access local variable '" ++ name
       ++ "' where it is not associated with a value").

Definition attribute_error (v : json) (attr : string) : exn :=
  mk_exn AttributeError
    ("'" ++ type_name v ++ "' object has no attribute '" ++ attr ++ "'").

(** Reading a local variable that may not have been assigned yet. *)
Definition load_local {A} (name : string) (slot : option A) : outcome A :=
  match slot with Some v => Ret v | None => Raise (unbound_local_error name) end.

(** [v.get(key, default)] on an arbitrary value: only a dict has [get]. *)
Definition method_get (v : json) (key : string) (default : json) : outcome json :=
  match v with
  | JDict d => Ret (dict_get_default d key default)
  | _ => Raise (attribute_error v "get")
  end.

(** A dict display [{k1: e1, k2: e2, ...}]: the values are evaluated left
    to right and the first one that raises aborts the display. *)
Fixpoint dict_display (entries : list (string * outcome json)) : outcome dict :=
  match entries with
  | [] => Ret []
  | (k, e) :: rest =>
      obind e (fun v => obind (dict_display rest) (fun d => Ret ((k, v) :: d)))
  end.

Definition display (entries : list (string * outcome json)) : outcome json :=
  obind (dict_display entries) (fun d => Ret (JDict d)).

Definition lit (v : json) : outcome json := Ret v.
Definition str_lit (s : string) : outcome json := Ret (JStr s).
Definition str_list (l : list string) : json := JList (map JStr l).

(* ===================================================================== *)
(** ** Rendering a body *)
(* ===================================================================== *)

(** A Python [str] is a sequence of code points; here it is the string
    of its UTF-8 bytes, a surrogate code point (which [json.loads]
    yields for an escape such as a lone [\ud800]) being written as the
    three bytes [ED A0..BF 80..BF] that the [surrogatepass] handler
    gives it.  No other code point has the byte [ED] followed by a byte
    of [A0..BF]. *)
Fixpoint has_surrogate (s : string) : bool :=
  match s with
  | String a (String b _ as rest) =>
      (Nat.eqb (nat_of_ascii a) 237
       && Nat.leb 160 (nat_of_ascii b) && Nat.leb (nat_of_ascii b) 191)
      || has_surrogate rest
  | _ => false
  end.

(** [s.encode("utf-8")] succeeds. *)
Definition encodable (s : string) : bool := negb (has_surrogate s).

(** [json.dumps(v, allow_nan=False)] succeeds: no float of [v] is an
    infinity or a NaN. *)
Fixpoint floats_finite (v : json) : bool :=
  match v with
  | JFloat (S754_infinity _) | JFloat S754_nan => false
  | JList items => forallb floats_finite items
  | JDict entries =>
      forallb (fun kv => match kv with (_, x) => floats_finite x end) entries
  | _ => true
  end.

(** The text [json.dumps(v, ensure_ascii=False)] can be encoded: no key
    and no string of [v] holds a surrogate. *)
Fixpoint strings_encodable (v : json) : bool :=
  match v with
  | JStr s => encodable s
  | JList items => forallb strings_encodable items
  | JDict entries =>
      forallb (fun kv => match kv with
                         | (k, x) => encodable k && strings_encodable x
                         end) entries
  | _ => true
  end.

Definition renderable (v : json) : bool :=
  floats_finite v && strings_encodable v.

(** What rendering an unrenderable body raises: [json.dumps] runs first
    and raises [ValueError]; the encoding of its text comes second and
    raises [UnicodeEncodeError].  The two texts are abbreviated: Python's
    go on to name the float, or the code point (as an escape) and its
    position in the text; like the ones here they are plain ASCII. *)
Definition render_error (v : json) : exn :=
  if floats_finite v
  then mk_exn UnicodeEncodeError
         "'utf-8' codec can't encode character: surrogates not allowed"
  else mk_exn ValueError "Out of range float values are not JSON compliant".

(* ===================================================================== *)
(** ** Module scope (lines 1-64) *)
(* ===================================================================== *)

(** The settings read from the environment at import time (lines 21-39). *)
Record settings : Type := {
  LOG_LEVEL : string;
  PORT : Z;
  HOST : string;
  DEBUG : bool;
  METRICS_PORT : Z;
  ALLOWED_ORIGINS : list string;
  MCP_SERVER_NAME : string;
  MCP_SERVER_VERSION : string
}.

Definition MCP_PROTOCOL_VERSION : string := "2.0".

(** An object bound to a global name: plain data, or something that is
    not data (a module, a class, a function). *)
Inductive pyobject : Type :=
| Data (v : json)
| Opaque (qualname : string).

(** Every name bound at module level, in the order of the file. *)
Definition module_globals (cfg : settings) : list (string * pyobject) :=
  [ ("FastAPI", Opaque "fastapi.FastAPI"); ("Request", Opaque "fastapi.Request");
    ("HTTPException", Opaque "fastapi.HTTPException");
    ("Depends", Opaque "fastapi.Depends"); ("status", Opaque "fastapi.status");
    ("StreamingResponse", Opaque "fastapi.responses.StreamingResponse");
    ("JSONResponse", Opaque "fastapi.responses.JSONResponse");
    ("CORSMiddleware", Opaque "fastapi.middleware.cors.CORSMiddleware");
    ("GZipMiddleware", Opaque "fastapi.middleware.gzip.GZipMiddleware");
    ("asyncio", Opaque "asyncio"); ("json", Opaque "json"); ("os", Opaque "os");
    ("sys", Opaque "sys"); ("time", Opaque "time");
    ("Dict", Opaque "typing.Dict"); ("List", Opaque "typing.List");
    ("Any", Opaque "typing.Any"); ("Optional", Opaque "typing.Optional");
    ("Union", Opaque "typing.Union");
    ("BaseModel", Opaque "pydantic.BaseModel"); ("Field", Opaque "pydantic.Field");
    ("uuid", Opaque "uuid"); ("logger", Opaque "loguru.logger");
    ("Counter", Opaque "prometheus_client.Counter");
    ("Histogram", Opaque "prometheus_client.Histogram");
    ("start_http_server", Opaque "prometheus_client.start_http_server");
    ("traceback", Opaque "traceback"); ("datetime", Opaque "datetime.datetime");
    ("jsonschema", Opaque "jsonschema");
    ("asynccontextmanager", Opaque "contextlib.asynccontextmanager");
    ("LOG_LEVEL", Data (JStr (LOG_LEVEL cfg)));
    ("REQUEST_COUNT", Opaque "REQUEST_COUNT");
    ("REQUEST_LATENCY", Opaque "REQUEST_LATENCY");
    ("PORT", Data (JInt (PORT cfg))); ("HOST", Data (JStr (HOST cfg)));
    ("DEBUG", Data (JBool (DEBUG cfg)));
    ("METRICS_PORT", Data (JInt (METRICS_PORT cfg)));
    ("ALLOWED_ORIGINS", Data (str_list (ALLOWED_ORIGINS cfg)));
    ("MCP_SERVER_NAME", Data (JStr (MCP_SERVER_NAME cfg)));
    ("MCP_SERVER_VERSION", Data (JStr (MCP_SERVER_VERSION cfg)));
    ("MCP_PROTOCOL_VERSION", Data (JStr MCP_PROTOCOL_VERSION));
    ("MCPRequest", Opaque "MCPRequest"); ("MCPResponse", Opaque "MCPResponse");
    ("lifespan", Opaque "lifespan"); ("app", Opaque "app");
    ("add_timing_and_logging", Opaque "add_timing_and_logging");
    ("health_check", Opaque "health_check"); ("sse", Opaque "sse");
    ("mcp_post", Opaque "mcp_post") ].

Fixpoint scope_lookup (name : string) (scope : list (string * pyobject))
  : option pyobject :=
  match scope with
  | [] => None
  | (k, o) :: rest => if String.eqb k name then Some o else scope_lookup name rest
  end.

(** Loading a name that is neither local nor a keyword, in the global
    scope [globals] (the builtins hold no lower-case [true]; [True],
    [False] and [None] are keywords and never looked up).  An object that
    is not data cannot be a value of a JSON body. *)
Definition load_global (globals : list (string * pyobject)) (name : string)
  : outcome json :=
  match scope_lookup name globals with
  | Some (Data v) => Ret v
  | Some (Opaque q) =>
      Raise (mk_exn TypeError
               ("Object of type " ++ q ++ " is not JSON serializable"))
  | None => Raise (name_error name)
  end.

(* ===================================================================== *)
(** ** What the libraries contribute *)
(* ===================================================================== *)

(** The parts of pydantic and the interpreter whose exact output is fixed
    outside this repository. *)
Record runtime : Type := {
  (** pydantic's lax coercion to [int] of a value that is neither an
      [int] nor a [str] (a bool or a float without fraction, say) *)
  lax_int : json -> option Z;
  (** [str(e)] of the [ValidationError] for a rejected mapping *)
  validation_error_text : json -> string;
  (** [str(e)] of the [TypeError] of [MCPRequest( **body )] when [body]
      is not a mapping *)
  kwargs_error_text : json -> string
}.

(** The body of an inbound POST as [await request.json()] sees it: bytes
    that [json.loads] rejects (the empty body among them), or the decoded
    value, which may hold an infinity (from [1e400], say) or a string
    with a surrogate. *)
Inductive request : Type :=
| BadBody (reason : string)
| JsonBody (v : json).

Definition request_json (req : request) : outcome json :=
  match req with
  | BadBody reason => Raise (mk_exn JSONDecodeError reason)
  | JsonBody v => Ret v
  end.

(* ===================================================================== *)
(** ** Request validation (lines 49-54) *)
(* ===================================================================== *)

(** [class MCPRequest(BaseModel)].  The fields are validated the way
    pydantic 2 does it for values that come out of [json.loads]: a [str]
    field is not coerced from other types, a [Union] keeps a value that
    already has one of its types, unknown keys are ignored. *)
Record MCPRequest : Type := {
  rpc_jsonrpc : string;           (* jsonrpc: str = "2.0" *)
  rpc_id : json;                  (* id: Union[int, str] *)
  rpc_method : string;            (* method: str *)
  rpc_params : option dict        (* params: Optional[Dict[str, Any]] = None *)
}.

Section Validation.
Variable rt : runtime.

(** A [str] field takes a string and nothing else. *)
Definition validate_str (v : json) : option string :=
  match v with JStr s => Some s | _ => None end.

(** [Union[int, str]]: a value of one of the two types is kept as it
    is; any other value goes through the lax coercion to [int]. *)
Definition validate_id (v : json) : option json :=
  match v with
  | JInt n => Some (JInt n)
  | JStr s => Some (JStr s)
  | _ => option_map JInt (lax_int rt v)
  end.

(** [Optional[Dict[str, Any]]]. *)
Definition validate_params (v : json) : option (option dict) :=
  match v with
  | JNull => Some None
  | JDict d => Some (Some d)
  | _ => None
  end.

Definition validate_fields (kw : dict) : option MCPRequest :=
  match
    match dict_lookup "jsonrpc" kw with
    | None => Some "2.0"%string
    | Some v => validate_str v
    end,
    match dict_lookup "id" kw with
    | None => None
    | Some v => validate_id v
    end,
    match dict_lookup "method" kw with
    | None => None
    | Some v => validate_str v
    end,
    match dict_lookup "params" kw with
    | None => Some None
    | Some v => validate_params v
    end
  with
  | Some j, Some i, Some m, Some p =>
      Some {| rpc_jsonrpc := j; rpc_id := i; rpc_method := m; rpc_params := p |}
  | _, _, _, _ => None
  end.

(** [MCPRequest( **body )]. *)
Definition MCPRequest_init (body : json) : outcome MCPRequest :=
  match body with
  | JDict kw =>
      match validate_fields kw with
      | Some r => Ret r
      | None => Raise (mk_exn ValidationError (validation_error_text rt body))
      end
  | _ => Raise (mk_exn TypeError (kwargs_error_text rt body))
  end.
End Validation.

(* ===================================================================== *)
(** ** The process around a handler *)
(* ===================================================================== *)

Inductive log_level : Type := INFO | WARNING | ERROR.

(** A formatted log message, kept as the pieces of its f-string. *)
Inductive piece : Type :=
| Txt (s : string)
| Val (v : json)
| Exc (e : exn)            (* {e} *)
| Traceback (e : exn)      (* {traceback.format_exc()} *)
| Seconds (dt : Z).        (* {time.time() - start_time:.4f} *)

Record log_record : Type := { level : log_level; message : list piece }.

Inductive backend_op : Type :=
| OpListTables
| OpDiscoverData (table : json)
| OpPrepareQuery (query : json)
| OpQuery (query : json).

(** Everything outside a request that a handler can observe or change.
    [backend_calls] is ghost state: it records that control reached the
    place where the handler does the backend's work. *)
Record world : Type := {
  uuid_source : nat -> string;    (* the values uuid.uuid4() will give *)
  uuid_drawn : nat;
  clock : nat -> Z;                (* the values time.time() will give *)
  clock_read : nat;
  log : list log_record;
  backend_calls : list backend_op
}.

Definition M (A : Type) : Type := world -> world * outcome A.

Definition ret {A} (a : A) : M A := fun w => (w, Ret a).
Definition raise {A} (e : exn) : M A := fun w => (w, Raise e).
Definition bind {A B} (c : M A) (k : A -> M B) : M B :=
  fun w => match c w with
           | (w', Ret a) => k a w'
           | (w', Raise e) => (w', Raise e)
           end.
Definition lift {A} (o : outcome A) : M A := fun w => (w, o).

Declare Scope py_scope.
Delimit Scope py_scope with py.
Notation "x <- c ;; k" := (bind c (fun x => k))
  (at level 61, c at next level, right associativity) : py_scope.
Notation "c ;;; k" := (bind c (fun _ => k))
  (at level 61, right associativity) : py_scope.
Local Open Scope py_scope.

(** [try: body except Exception as e: handler e]. *)
Definition try_except {A} (body : M A) (handler : exn -> M A) : M A :=
  fun w => match body w with
           | (w', Raise e) => if is_Exception e then handler e w' else (w', Raise e)
           | r => r
           end.

(** [try: body finally: cleanup]. *)
Definition try_finally {A} (body : M A) (cleanup : M unit) : M A :=
  fun w => match body w with
           | (w', r) =>
               match cleanup w' with
               | (w'', Ret _) => (w'', r)
               | (w'', Raise e) => (w'', Raise e)
               end
           end.

Definition uuid4 : M string :=
  fun w => ({| uuid_source := uuid_source w; uuid_drawn := S (uuid_drawn w);
               clock := clock w; clock_read := clock_read w;
               log := log w; backend_calls := backend_calls w |},
            Ret (uuid_source w (uuid_drawn w))).

Definition time_time : M Z :=
  fun w => ({| uuid_source := uuid_source w; uuid_drawn := uuid_drawn w;
               clock := clock w; clock_read := S (clock_read w);
               log := log w; backend_calls := backend_calls w |},
            Ret (clock w (clock_read w))).

Definition logger (lvl : log_level) (msg : list piece) : M unit :=
  fun w => ({| uuid_source := uuid_source w; uuid_drawn := uuid_drawn w;
               clock := clock w; clock_read := clock_read w;
               log := log w ++ [{| level := lvl; message := msg |}];
               backend_calls := backend_calls w |},
            Ret tt).

Definition backend (op : backend_op) : M unit :=
  fun w => ({| uuid_source := uuid_source w; uuid_drawn := uuid_drawn w;
               clock := clock w; clock_read := clock_read w;
               log := log w;
               backend_calls := backend_calls w ++ [op] |},
            Ret tt).

(* ===================================================================== *)
(** ** The call endpoint: [mcp_post] (lines 278-565) *)
(* ===================================================================== *)

Record http_response : Type := { status_code : Z; content : json }.

Definition HTTP_200_OK : Z := 200.
Definition HTTP_400_BAD_REQUEST : Z := 400.
Definition HTTP_500_INTERNAL_SERVER_ERROR : Z := 500.

(** [JSONResponse(content)] and [JSONResponse(status_code=..., content=...)]:
    the constructor renders the body,
    [json.dumps(content, ensure_ascii=False, allow_nan=False, ...).encode("utf-8")],
    and raises what the rendering raises. *)
Definition JSONResponse (body : json) (code : Z) : outcome http_response :=
  if renderable body then Ret {| status_code := code; content := body |}
  else Raise (render_error body).

Definition newline : string := String (ascii_of_nat 10) EmptyString.

(** The envelope [{"jsonrpc": "2.0", "id": ..., "result": ...}]. *)
Definition result_envelope (id result : json) : json :=
  JDict [("jsonrpc", JStr "2.0"); ("id", id); ("result", result)].

(** The envelope [{"jsonrpc": "2.0", "id": ..., "error": {"code": ...,
    "message": ..., "data": ...}}]. *)
Definition error_envelope (id : json) (code : Z) (message : string) (data : json)
  : json :=
  JDict [("jsonrpc", JStr "2.0"); ("id", id);
         ("error", JDict [("code", JInt code); ("message", JStr message);
                          ("data", data)])].

(** The stub bodies that stand where a backend would be called
    (lines 401-402, 437-448, 476-484, 512-523). *)
Module Backend.
Definition list_tables : M json :=
  (backend OpListTables ;;;
   ret (JDict [("tables", str_list ["users"; "products"; "orders"])]))%py.

Definition discover_data (table : json) : M json :=
  (backend (OpDiscoverData table) ;;;
   ret (JDict [("columns",
                JList [ JDict [("name", JStr "id"); ("type", JStr "integer")];
                        JDict [("name", JStr "name"); ("type", JStr "string")];
                        JDict [("name", JStr "created_at");
                               ("type", JStr "timestamp")] ])]))%py.

Definition prepare_query (query : json) : M json :=
  (backend (OpPrepareQuery query) ;;;
   ret (JDict [("prepared", JBool true); ("parameters", JList [])]))%py.

Definition query (q : json) : M json :=
  (backend (OpQuery q) ;;;
   ret (JDict [("columns", str_list ["id"; "name"]);
               ("rows", JList [ JList [JInt 1; JStr "Example"];
                                JList [JInt 2; JStr "Test"] ])]))%py.
End Backend.

Section Dispatch.
Variable rt : runtime.
Variable cfg : settings.

(** [{"detail": str(e)} if DEBUG else None]. *)
Definition debug_detail (e : exn) : json :=
  if DEBUG cfg then JDict [("detail", JStr (exn_str e))] else JNull.

(** The dict display of lines 323-389, the argument of [JSONResponse],
    evaluated in the global scope [globals]. *)
Definition initialize_content (globals : list (string * pyobject))
  (request_id_from_client : json) : outcome json :=
  display [
    ("jsonrpc", str_lit "2.0");
    ("id", lit request_id_from_client);
    ("result", display [
      ("capabilities", display [
        ("serverName", load_global globals "MCP_SERVER_NAME");
        ("serverVersion", load_global globals "MCP_SERVER_VERSION");
        ("tools", lit (JList [
           JDict [("name", JStr "list_tables");
                  ("description", JStr "List all available tables");
                  ("parameters", JDict [("type", JStr "object");
                                        ("properties", JDict [])])];
           JDict [("name", JStr "discover_data");
                  ("description", JStr "Discover data in tables");
                  ("parameters", JDict [
                     ("type", JStr "object");
                     ("properties", JDict [
                        ("table", JDict [("type", JStr "string");
                                         ("description",
                                          JStr "Table name to discover")])]);
                     ("required", str_list ["table"])])];
           JDict [("name", JStr "prepare_query");
                  ("description", JStr "Prepare a SQL query");
                  ("parameters", JDict [
                     ("type", JStr "object");
                     ("properties", JDict [
                        ("query", JDict [("type", JStr "string");
                                         ("description",
                                          JStr "SQL query to prepare")])]);
                     ("required", str_list ["query"])])];
           JDict [("name", JStr "query");
                  ("description", JStr "Execute a SQL query");
                  ("parameters", JDict [
                     ("type", JStr "object");
                     ("properties", JDict [
                        ("query", JDict [("type", JStr "string");
                                         ("description",
                                          JStr "SQL query to execute")])]);
                     ("required", str_list ["query"])])] ]));
        ("capabilities", display [
          ("supportedLanguages", lit (str_list ["sql"; "python"]));
          ("supportsNotebooks", load_global globals "true");
          ("supportsInlineCompletions", load_global globals "true") ]) ]) ]) ].

(** The handler of the inner [try] (lines 299-312).  [body] is the
    local variable as far as the [try] block got to assign it. *)
Definition parse_failed (request_id : string) (body : option json) (e : exn)
  : M http_response :=
  logger ERROR [Txt "Invalid request "; Txt request_id; Txt ": "; Exc e] ;;;
  response <- lift (display [
    ("jsonrpc", str_lit "2.0");
    ("id",
     (* body.get("id") if isinstance(body, dict) else None *)
     obind (load_local "body" body) (fun b =>
       match b with
       | JDict _ => obind (load_local "body" body)
                      (fun b' => method_get b' "id" JNull)
       | _ => Ret JNull
       end));
    ("error", display [
      ("code", lit (JInt (-32700)));
      ("message", str_lit "Parse error");
      ("data", lit (debug_detail e)) ]) ]) ;;
  lift (JSONResponse response HTTP_400_BAD_REQUEST).

(** The [except Exception] clause shared by the four backend methods
    (lines 411-421, 450-460, 486-496, 525-535). *)
Definition backend_failed (what : string) (request_id_from_client : json)
  (e : exn) : M http_response :=
  logger ERROR [Txt what; Exc e; Txt newline; Traceback e] ;;;
  lift (JSONResponse
          (error_envelope request_id_from_client (-32000) "Internal error"
             (debug_detail e))
          HTTP_200_OK).

Definition invalid_params (request_id_from_client : json) (field : string)
  : outcome http_response :=
  JSONResponse
    (error_envelope request_id_from_client (-32602) "Invalid params"
       (JDict [("detail", JStr ("Missing required parameter: " ++ field))]))
    HTTP_200_OK.

(** The [if method == ...] chain of lines 315-547. *)
Definition dispatch (method : string) (request_id_from_client : json)
  (params : dict) : M http_response :=
  if String.eqb method "initialize" then
    let client_info := dict_get_default params "clientInfo" (JDict []) in
    client_name <- lift (method_get client_info "name" (JStr "Unknown")) ;;
    client_version <- lift (method_get client_info "version" (JStr "Unknown")) ;;
    logger INFO [Txt "Client initialized: "; Val client_name; Txt " v";
                 Val client_version] ;;;
    response <- lift (initialize_content (module_globals cfg)
                        request_id_from_client) ;;
    lift (JSONResponse response HTTP_200_OK)
  else if String.eqb method "shutdown" then
    logger INFO [Txt "Client requested shutdown"] ;;;
    lift (JSONResponse (result_envelope request_id_from_client JNull)
            HTTP_200_OK)
  else if String.eqb method "list_tables" then
    try_except
      (result <- Backend.list_tables ;;
       lift (JSONResponse (result_envelope request_id_from_client result)
               HTTP_200_OK))
      (backend_failed "Error listing tables: " request_id_from_client)
  else if String.eqb method "discover_data" then
    try_except
      (let table := dict_get params "table" in
       if negb (truthy table) then
         lift (invalid_params request_id_from_client "table")
       else
         result <- Backend.discover_data table ;;
         lift (JSONResponse (result_envelope request_id_from_client result)
                 HTTP_200_OK))
      (backend_failed "Error discovering data: " request_id_from_client)
  else if String.eqb method "prepare_query" then
    try_except
      (let query := dict_get params "query" in
       if negb (truthy query) then
         lift (invalid_params request_id_from_client "query")
       else
         result <- Backend.prepare_query query ;;
         lift (JSONResponse (result_envelope request_id_from_client result)
                 HTTP_200_OK))
      (backend_failed "Error preparing query: " request_id_from_client)
  else if String.eqb method "query" then
    try_except
      (let query := dict_get params "query" in
       if negb (truthy query) then
         lift (invalid_params request_id_from_client "query")
       else
         result <- Backend.query query ;;
         lift (JSONResponse (result_envelope request_id_from_client result)
                 HTTP_200_OK))
      (backend_failed "Error executing query: " request_id_from_client)
  else
    logger WARNING [Txt "Method not found: "; Txt method] ;;;
    lift (JSONResponse
            (error_envelope request_id_from_client (-32601) "Method not found"
               (JDict [("method", JStr method)]))
            HTTP_200_OK).

(** [mcp_request.params or {}]. *)
Definition params_or_empty (p : option dict) : dict :=
  match p with
  | Some d => if truthy (JDict d) then d else []
  | None => []
  end.

(** The inner [try] of lines 290-312 followed by the dispatch.  The
    handler runs with [body] unassigned when [request.json()] raised. *)
Definition parse_and_dispatch (request_id : string) (req : request)
  : M http_response :=
  fun w =>
    match request_json req with
    | Raise e =>
        if is_Exception e then parse_failed request_id None e w
        else (w, Raise e)
    | Ret body =>
        match MCPRequest_init rt body with
        | Raise e =>
            if is_Exception e then parse_failed request_id (Some body) e w
            else (w, Raise e)
        | Ret mcp_request =>
            let method := rpc_method mcp_request in
            let request_id_from_client := rpc_id mcp_request in
            let params := params_or_empty (rpc_params mcp_request) in
            (logger INFO [Txt "MCP request "; Txt request_id; Txt ": method=";
                          Txt method; Txt ", id="; Val request_id_from_client] ;;;
             dispatch method request_id_from_client params) w
        end
    end.

(** The catch-all of lines 548-562. *)
Definition unexpected_error (e : exn) : M http_response :=
  logger ERROR [Txt "Unexpected error: "; Exc e; Txt newline; Traceback e] ;;;
  lift (JSONResponse
          (error_envelope JNull (-32603) "Internal error" (debug_detail e))
          HTTP_500_INTERNAL_SERVER_ERROR).

Definition mcp_post (req : request) : M http_response :=
  request_id <- uuid4 ;;
  start_time <- time_time ;;
  try_finally
    (try_except (parse_and_dispatch request_id req) unexpected_error)
    (now <- time_time ;;
     logger INFO [Txt "MCP request "; Txt request_id; Txt " processed in ";
                  Seconds (now - start_time); Txt "s"]).
End Dispatch.

(* ===================================================================== *)
(** ** The middleware: [add_timing_and_logging] (lines 93-127) *)
(* ===================================================================== *)

(** The two prometheus metrics of lines 27-28: a counter per pair of
    labels, and the observations of the histogram in the order they were
    made. *)
Record metrics : Type := {
  request_count : string -> string -> nat;      (* REQUEST_COUNT *)
  request_latency : list (string * string * Z)  (* REQUEST_LATENCY *)
}.

(** The process as the middleware sees it. *)
Record process : Type := { the_world : world; the_metrics : metrics }.

Definition PM (A : Type) : Type := process -> process * outcome A.

Definition pret {A} (a : A) : PM A := fun p => (p, Ret a).
Definition pbind {A B} (c : PM A) (k : A -> PM B) : PM B :=
  fun p => match c p with
           | (p', Ret a) => k a p'
           | (p', Raise e) => (p', Raise e)
           end.

(** A computation of the handlers' layer, run inside the process. *)
Definition in_world {A} (c : M A) : PM A :=
  fun p => match c (the_world p) with
           | (w', r) => ({| the_world := w'; the_metrics := the_metrics p |}, r)
           end.

(** [try: body except Exception as e: handler e], in the process. *)
Definition ptry_except {A} (body : PM A) (handler : exn -> PM A) : PM A :=
  fun p => match body p with
           | (p', Raise e) => if is_Exception e then handler e p' else (p', Raise e)
           | r => r
           end.

Declare Scope proc_scope.
Delimit Scope proc_scope with proc.
Notation "x <- c ;; k" := (pbind c (fun x => k))
  (at level 61, c at next level, right associativity) : proc_scope.
Notation "c ;;; k" := (pbind c (fun _ => k))
  (at level 61, right associativity) : proc_scope.

(** [REQUEST_COUNT.labels(method=method, endpoint=path).inc()] *)
Definition count_request (method path : string) : PM unit :=
  fun p =>
    ({| the_world := the_world p;
        the_metrics :=
          {| request_count :=
               fun m e =>
                 if String.eqb m method && String.eqb e path
                 then S (request_count (the_metrics p) m e)
                 else request_count (the_metrics p) m e;
             request_latency := request_latency (the_metrics p) |} |},
     Ret tt).

(** [REQUEST_LATENCY.labels(method=method, endpoint=path).observe(dt)] *)
Definition observe_latency (method path : string) (dt : Z) : PM unit :=
  fun p =>
    ({| the_world := the_world p;
        the_metrics :=
          {| request_count := request_count (the_metrics p);
             request_latency :=
               (request_latency (the_metrics p) ++ [(method, path, dt)])%list |} |},
     Ret tt).

Section Middleware.
Variable cfg : settings.
(** The responses of the application: every one has a status code, and
    a [JSONResponse] is one of them. *)
Variable Response : Type.
Variable status_code_of : Response -> Z.
Variable json_response : http_response -> Response.

(** [method] and [path] are [request.method] and [request.url.path];
    [call_next] is the rest of the application for this request. *)
Definition add_timing_and_logging (method path : string)
  (call_next : M Response) : PM Response :=
  (start_time <- in_world time_time ;;
   request_id <- in_world uuid4 ;;
   in_world (logger INFO [Txt "Request "; Txt request_id; Txt ": "; Txt method;
                          Txt " "; Txt path]) ;;;
   ptry_except
     (response <- in_world call_next ;;
      count_request method path ;;;
      observed <- in_world time_time ;;
      observe_latency method path (observed - start_time) ;;;
      logged <- in_world time_time ;;
      in_world (logger INFO [Txt "Response "; Txt request_id; Txt ": ";
                             Val (JInt (status_code_of response)); Txt " - ";
                             Seconds (logged - start_time); Txt "s"]) ;;;
      pret response)
     (fun e =>
        in_world (logger ERROR [Txt "Error "; Txt request_id; Txt ": "; Exc e;
                                Txt newline; Traceback e]) ;;;
        answer <- in_world
                    (lift (JSONResponse
                             (error_envelope JNull (-32603)
                                "Internal server error" (debug_detail cfg e))
                             HTTP_500_INTERNAL_SERVER_ERROR)) ;;
        pret (json_response answer)))%proc.
End Middleware.

(** The call endpoint behind the middleware: [POST /]. *)
Definition post_root (rt : runtime) (cfg : settings) (req : request)
  : PM http_response :=
  add_timing_and_logging cfg http_response status_code (fun r => r)
    "POST" "/" (mcp_post rt cfg req).

(** The process serving a sequence of calls to [POST /], one after the
    other, each behind the middleware. *)
Fixpoint serve (rt : runtime) (cfg : settings) (reqs : list request)
  (p : process) : process * list (outcome http_response) :=
  match reqs with
  | [] => (p, [])
  | req :: rest =>
      match post_root rt cfg req p with
      | (p', r) =>
          match serve rt cfg rest p' with
          | (p'', rs) => (p'', r :: rs)
          end
      end
  end.

(* ===================================================================== *)
(** ** The event stream: [event_stream] (lines 165-266) *)
(* ===================================================================== *)

(** What the consumer of the generator, or the event loop, does at a
    point where the generator is suspended: let it go on, or raise an
    exception there ([athrow], [aclose], a cancelled task). *)
Inductive signal : Type :=
| Resume
| Throw (e : exn).

(** The places where the generator can be suspended: its [yield]s and
    its [await]s. *)
Inductive suspended : Type :=
| AtReady                                   (* yield, line 168 *)
| AtGrace                                   (* await asyncio.sleep(1), line 169 *)
| AtCapabilities                            (* yield, line 239 *)
| AtSleep (missed_heartbeats beats : nat)   (* await asyncio.sleep(10), line 248 *)
| AtHeartbeat (missed_heartbeats beats : nat) (* yield, line 250 *)
| AtError.                                  (* yield, line 264 *)

Inductive gen_state : Type :=
| Suspended (at_ : suspended)
| Finished                  (* the generator returned *)
| Propagated (e : exn).     (* an exception left the generator *)

Record stream : Type := {
  chunks : list string;           (* what has been yielded so far *)
  stream_log : list log_record;
  state : gen_state
}.

Definition dq : string := String (ascii_of_nat 34) EmptyString.
Definition quoted (s : string) : string := dq ++ s ++ dq.

Section Stream.
Variable cfg : settings.
Variable json_dumps : json -> string.
(** [datetime.utcnow().isoformat()] at the n-th heartbeat *)
Variable utcnow_isoformat : nat -> string.
Variable client_id : string.

Definition heartbeat_interval : Z := 10.
Definition max_missed_heartbeats : nat := 3.

(** ['data: {"type": "ready", "clientId": "' + client_id + '"}\n\n'] *)
Definition ready_chunk : string :=
  "data: {" ++ quoted "type" ++ ": " ++ quoted "ready" ++ ", "
    ++ quoted "clientId" ++ ": " ++ dq ++ client_id ++ dq ++ "}"
    ++ newline ++ newline.

(** The f-string of line 250. *)
Definition heartbeat_chunk (timestamp : string) : string :=
  "data: {" ++ quoted "type" ++ ": " ++ quoted "heartbeat" ++ ", "
    ++ quoted "timestamp" ++ ": " ++ dq ++ timestamp ++ dq ++ ", "
    ++ quoted "clientId" ++ ": " ++ dq ++ client_id ++ dq ++ "}"
    ++ newline ++ newline.

(** The f-string of line 264. *)
Definition error_chunk (e : exn) : string :=
  "data: {" ++ quoted "type" ++ ": " ++ quoted "error" ++ ", "
    ++ quoted "message" ++ ": " ++ quoted "Stream error" ++ ", "
    ++ quoted "detail" ++ ": " ++ dq ++ exn_str e ++ dq ++ "}"
    ++ newline ++ newline.

(** The dict display of lines 172-238, bound to [response], evaluated
    in the global scope [globals]. *)
Definition capabilities_response (globals : list (string * pyobject))
  : outcome json :=
  display [
    ("jsonrpc", str_lit "2.0");
    ("id", lit (JInt 1));
    ("result", display [
      ("capabilities", display [
        ("serverName", load_global globals "MCP_SERVER_NAME");
        ("serverVersion", load_global globals "MCP_SERVER_VERSION");
        ("tools", lit (JList [
           JDict [("name", JStr "list_tables");
                  ("description", JStr "List all available tables");
                  ("parameters", JDict [("type", JStr "object");
                                        ("properties", JDict [])])];
           JDict [("name", JStr "discover_data");
                  ("description", JStr "Discover data in tables");
                  ("parameters", JDict [
                     ("type", JStr "object");
                     ("properties", JDict [
                        ("table", JDict [("type", JStr "string");
                                         ("description",
                                          JStr "Table name to discover")])]);
                     ("required", str_list ["table"])])];
           JDict [("name", JStr "prepare_query");
                  ("description", JStr "Prepare a SQL query");
                  ("parameters", JDict [
                     ("type", JStr "object");
                     ("properties", JDict [
                        ("query", JDict [("type", JStr "string");
                                         ("description",
                                          JStr "SQL query to prepare")])]);
                     ("required", str_list ["query"])])];
           JDict [("name", JStr "query");
                  ("description", JStr "Execute a SQL query");
                  ("parameters", JDict [
                     ("type", JStr "object");
                     ("properties", JDict [
                        ("query", JDict [("type", JStr "string");
                                         ("description",
                                          JStr "SQL query to execute")])]);
                     ("required", str_list ["query"])])] ]));
        ("capabilities", display [
          ("supportedLanguages", lit (str_list ["sql"; "python"]));
          ("supportsNotebooks", load_global globals "true");
          ("supportsInlineCompletions", load_global globals "true") ]) ]) ]) ].

Definition emit (s : stream) (chunk : string) (at_ : suspended) : stream :=
  {| chunks := chunks s ++ [chunk]; stream_log := stream_log s;
     state := Suspended at_ |}.

Definition goto (s : stream) (st : gen_state) : stream :=
  {| chunks := chunks s; stream_log := stream_log s; state := st |}.

Definition record (s : stream) (lvl : log_level) (msg : list piece) : stream :=
  {| chunks := chunks s;
     stream_log := stream_log s ++ [{| level := lvl; message := msg |}];
     state := state s |}.

(** The [finally] clause of lines 265-266, then the generator is left
    in the way [st] says. *)
Definition terminate (s : stream) (st : gen_state) : stream :=
  goto (record s INFO [Txt "SSE connection terminated: "; Txt client_id]) st.

(** An exception raised in the outer [try] outside the heartbeat loop's
    own [try] (lines 261-264). *)
Definition stream_error (s : stream) (e : exn) : stream :=
  if is_Exception e then
    emit (record s ERROR [Txt "SSE stream error for client "; Txt client_id;
                          Txt ": "; Exc e; Txt newline; Traceback e])
      (error_chunk e) AtError
  else terminate s (Propagated e).

(** An exception raised in the [try] of the loop body (lines 252-260),
    with the counter as it stands. *)
Definition heartbeat_failed (s : stream) (missed_heartbeats beats : nat)
  (e : exn) : stream :=
  if is_CancelledError e then
    terminate (record s INFO [Txt "SSE connection closed for client ";
                              Txt client_id]) Finished
  else if is_Exception e then
    let missed_heartbeats := S missed_heartbeats in
    let s := record s ERROR [Txt "Error sending heartbeat to client ";
                             Txt client_id; Txt ": "; Exc e] in
    if (max_missed_heartbeats <=? missed_heartbeats)%nat then
      terminate (record s WARNING
                   [Txt "Too many missed heartbeats for client ";
                    Txt client_id; Txt ", closing connection"]) Finished
    else goto s (Suspended (AtSleep missed_heartbeats beats))
  else terminate s (Propagated e).

(** The generator goes on from where it is suspended until it is
    suspended again or terminates. *)
Definition resume (s : stream) (at_ : suspended) (sig : signal) : stream :=
  match at_, sig with
  | AtReady, Resume => goto s (Suspended AtGrace)
  | AtGrace, Resume =>
      match capabilities_response (module_globals cfg) with
      | Ret response =>
          emit s ("data: " ++ json_dumps response ++ newline ++ newline)
            AtCapabilities
      | Raise e => stream_error s e
      end
  | AtCapabilities, Resume =>
      (* missed_heartbeats = 0; while True: ... *)
      goto s (Suspended (AtSleep 0 0))
  | AtSleep missed_heartbeats beats, Resume =>
      let timestamp := utcnow_isoformat beats in
      emit s (heartbeat_chunk timestamp) (AtHeartbeat missed_heartbeats (S beats))
  | AtHeartbeat missed_heartbeats beats, Resume =>
      (* missed_heartbeats = 0 *)
      goto s (Suspended (AtSleep 0 beats))
  | AtError, Resume => terminate s Finished
  | AtSleep missed_heartbeats beats, Throw e
  | AtHeartbeat missed_heartbeats beats, Throw e =>
      heartbeat_failed s missed_heartbeats beats e
  | AtError, Throw e => terminate s (Propagated e)
  | _, Throw e => stream_error s e
  end.

Definition step (s : stream) (sig : signal) : stream :=
  match state s with
  | Suspended at_ => resume s at_ sig
  | _ => s
  end.

Definition run (s : stream) (sigs : list signal) : stream :=
  fold_left step sigs s.

(** The generator after its first [__anext__]: it has run up to the
    first [yield]. *)
Definition started : stream :=
  {| chunks := [ready_chunk]; stream_log := []; state := Suspended AtReady |}.

Definition event_stream (sigs : list signal) : stream := run started sigs.

End Stream.

(* ===================================================================== *)
(** * Vocabulary of the properties *)
(* ===================================================================== *)

(** What a computation answers, and which backend calls it has made,
    when it is run in the world [w]. *)
Definition reply {A} (c : M A) (w : world) : outcome A := snd (c w).
Definition backend_calls_after {A} (c : M A) (w : world) : list backend_op :=
  backend_calls (fst (c w)).

(** A response that was rendered. *)
Definition sent (body : json) (code : Z) : http_response :=
  {| status_code := code; content := body |}.

(** A response body has the key [result] or the key [error], not both. *)
Definition exactly_one_of_result_error (v : json) : bool :=
  match v with
  | JDict d => xorb (has_key "result" d) (has_key "error" d)
  | _ => false
  end.

(** The [id] of a response body, and the [code] and [data] of its [error]. *)
Definition envelope_id (v : json) : option json :=
  match v with JDict d => dict_lookup "id" d | _ => None end.

Definition envelope_error (v : json) : option json :=
  match v with JDict d => dict_lookup "error" d | _ => None end.

Definition envelope_result (v : json) : option json :=
  match v with JDict d => dict_lookup "result" d | _ => None end.

Definition envelope_jsonrpc (v : json) : option json :=
  match v with JDict d => dict_lookup "jsonrpc" d | _ => None end.

Definition error_code (v : json) : option json :=
  match envelope_error v with
  | Some (JDict e) => dict_lookup "code" e
  | _ => None
  end.

Definition error_data (v : json) : option json :=
  match envelope_error v with
  | Some (JDict e) => dict_lookup "data" e
  | _ => None
  end.

Definition ParseError : Z := -32700.
Definition InvalidParams : Z := -32602.
Definition MethodNotFound : Z := -32601.
Definition InternalError : Z := -32603.
Definition ApplicationError : Z := -32000.

Definition known_methods : list string :=
  ["initialize"; "shutdown"; "list_tables"; "discover_data"; "prepare_query";
   "query"].

(** An [id] of one of the two types the envelope allows. *)
Definition well_typed_id (v : json) : bool :=
  match v with JInt _ | JStr _ => true | _ => false end.

(** The parameter a method cannot do without. *)
Definition required_parameter (method : string) : option string :=
  if String.eqb method "discover_data" then Some "table"
  else if String.eqb method "prepare_query" then Some "query"
  else if String.eqb method "query" then Some "query"
  else None.

(** [params] has no value under [field], or an empty one. *)
Definition lacks_nonempty (params : dict) (field : string) : Prop :=
  truthy (dict_get params field) = false.

(** [body.get("id") if isinstance(body, dict) else None]. *)
Definition recovered_id (body : json) : json :=
  match body with
  | JDict d => dict_get d "id"
  | _ => JNull
  end.

(** The method a call asks for, when its body passes validation. *)
Definition called_method (rt : runtime) (req : request) : option string :=
  match request_json req with
  | Ret body =>
      match MCPRequest_init rt body with
      | Ret r => Some (rpc_method r)
      | Raise _ => None
      end
  | Raise _ => None
  end.

(** An ordinary exception whose text can be rendered. *)
Definition plain (e : exn) : bool := is_Exception e && encodable (exn_str e).

(** The code point U+D800 on its own, as [json.loads] yields it for the
    escape [\ud800]. *)
Definition lone_surrogate : string :=
  String (ascii_of_nat 237)
    (String (ascii_of_nat 160) (String (ascii_of_nat 128) EmptyString)).

Section DispatchVocabulary.
Variable rt : runtime.
Variable cfg : settings.

(** The answer of the catch-all of lines 548-562 for an exception [e]. *)
Definition internal_error_response (e : exn) : http_response :=
  sent (error_envelope JNull InternalError "Internal error" (debug_detail cfg e))
    HTTP_500_INTERNAL_SERVER_ERROR.

(** What the catch-all makes of the outcome of the [try] block. *)
Definition settle (r : outcome http_response) : outcome http_response :=
  match r with
  | Ret resp => Ret resp
  | Raise e =>
      if is_Exception e
      then JSONResponse
             (error_envelope JNull (-32603) "Internal error" (debug_detail cfg e))
             HTTP_500_INTERNAL_SERVER_ERROR
      else Raise e
  end.

(** What the [except] clause of a backend method makes of the outcome of
    its [try] block. *)
Definition in_try (id : json) (r : outcome http_response)
  : outcome http_response :=
  match r with
  | Ret resp => Ret resp
  | Raise e =>
      if is_Exception e
      then JSONResponse
             (error_envelope id (-32000) "Internal error" (debug_detail cfg e))
             HTTP_200_OK
      else Raise e
  end.

(** The process after it has served the calls [history]. *)
Definition after (history : list request) (p : process) : process :=
  fst (serve rt cfg history p).

Definition replies (reqs : list request) (p : process)
  : list (outcome http_response) :=
  snd (serve rt cfg reqs p).

(** The session lifecycle as a precondition: whenever serving a call of
    the sequence [reqs] reaches the backend, a call of [initialize]
    came earlier in the sequence. *)
Definition lifecycle_enforced (p : process) (reqs : list request) : Prop :=
  forall history req rest,
    reqs = (history ++ req :: rest)%list ->
    backend_calls
      (the_world (fst (post_root rt cfg req (after history p))))
      <> backend_calls (the_world (after history p)) ->
    exists prior, In prior history /\ called_method rt prior = Some "initialize".

(** The required parameters as stated without a condition on the [id]:
    a validated call of [body] that lacks its required parameter is
    answered InvalidParams under the [id] of the request. *)
Definition missing_parameter_is_reported (body : json) : Prop :=
  forall r field w,
    MCPRequest_init rt body = Ret r ->
    required_parameter (rpc_method r) = Some field ->
    lacks_nonempty (params_or_empty (rpc_params r)) field ->
    exists resp,
      reply (mcp_post rt cfg (JsonBody body)) w = Ret resp
      /\ error_code (content resp) = Some (JInt InvalidParams)
      /\ envelope_id (content resp) = Some (rpc_id r).
End DispatchVocabulary.

(** The five kinds of answer the call endpoint gives. *)
Inductive answer (cfg : settings) : http_response -> Prop :=
| answer_internal_error (e : exn) :
    answer cfg
      (sent (error_envelope JNull InternalError "Internal error"
               (debug_detail cfg e))
         HTTP_500_INTERNAL_SERVER_ERROR)
| answer_parse_error (id : json) (e : exn) :
    answer cfg
      (sent (error_envelope id ParseError "Parse error" (debug_detail cfg e))
         HTTP_400_BAD_REQUEST)
| answer_result (id result : json) :
    answer cfg (sent (result_envelope id result) HTTP_200_OK)
| answer_invalid_params (id : json) (field : string) :
    answer cfg
      (sent
         (error_envelope id InvalidParams "Invalid params"
            (JDict [("detail", JStr ("Missing required parameter: " ++ field))]))
         HTTP_200_OK)
| answer_method_not_found (id : json) (method : string) :
    answer cfg
      (sent
         (error_envelope id MethodNotFound "Method not found"
            (JDict [("method", JStr method)]))
         HTTP_200_OK).

(** Values to run the model on: a runtime without lax coercion, the
    default settings of lines 31-39, an untouched process. *)
Definition example_runtime : runtime :=
  {| lax_int := fun _ => None;
     validation_error_text := fun _ => "validation error for MCPRequest";
     kwargs_error_text := fun _ => "argument after ** must be a mapping" |}.

Definition example_settings : settings :=
  {| LOG_LEVEL := "INFO"; PORT := 8080; HOST := "0.0.0.0"; DEBUG := false;
     METRICS_PORT := 8081; ALLOWED_ORIGINS := ["*"];
     MCP_SERVER_NAME := "Python FastAPI MCP"; MCP_SERVER_VERSION := "1.0.0" |}.

Definition fresh_world : world :=
  {| uuid_source := fun _ => "6f1c2a9e-0d4b-4c57-9a3e-5b8d7e2f1a60";
     uuid_drawn := 0; clock := fun n => Z.of_nat n; clock_read := 0;
     log := []; backend_calls := [] |}.

Definition fresh_process : process :=
  {| the_world := fresh_world;
     the_metrics := {| request_count := fun _ _ => O; request_latency := [] |} |}.

(** The body [{"jsonrpc": "2.0", "id": ..., "method": ..., "params": ...}]. *)
Definition call (method : string) (id params : json) : request :=
  JsonBody (JDict [("jsonrpc", JStr "2.0"); ("id", id); ("method", JStr method);
                   ("params", params)]).

(** A call handler that fails with the exception [e]. *)
Definition failing_handler (e : exn) : M http_response := raise e.

Definition connection_reset : exn :=
  mk_exn OtherException "Connection reset by peer".

(** ** What a call leaves behind *)

(** The last record a call writes to the log, from the [finally] clause
    of lines 563-565, for a call that starts in the world [w]. *)
Definition processed_record (w : world) : log_record :=
  {| level := INFO;
     message := [Txt "MCP request "; Txt (uuid_source w (uuid_drawn w));
                 Txt " processed in ";
                 Seconds (clock w (S (clock_read w)) - clock w (clock_read w));
                 Txt "s"] |}.

(** A log that has only grown. *)
Definition extends (before after_ : list log_record) : Prop :=
  exists added, after_ = (before ++ added)%list.

(** From [w] to [w'] nothing has happened but logging and backend work:
    no uuid was drawn and the clock was not read. *)
Definition only_logged (w w' : world) : Prop :=
  uuid_source w' = uuid_source w /\ uuid_drawn w' = uuid_drawn w
  /\ clock w' = clock w /\ clock_read w' = clock_read w
  /\ extends (log w) (log w').

(** ** The stream seen from outside *)

(** One turn of the loop body: the heartbeat went out and the generator
    was resumed, or an exception was raised at the [await] or at the
    [yield]. *)
Inductive attempt : Type :=
| Sent
| SleepFailed (e : exn)
| SendFailed (e : exn).

Definition attempt_signals (a : attempt) : list signal :=
  match a with
  | Sent => [Resume; Resume]
  | SleepFailed e => [Throw e]
  | SendFailed e => [Resume; Throw e]
  end.

Definition signals_of (attempts : list attempt) : list signal :=
  flat_map attempt_signals attempts.

Definition failed (a : attempt) : bool :=
  match a with Sent => false | _ => true end.

(** A failure is an ordinary [Exception], not a cancellation. *)
Definition transient (a : attempt) : bool :=
  match a with
  | Sent => true
  | SleepFailed e | SendFailed e => is_Exception e
  end.

Fixpoint leading_failures (attempts : list attempt) : nat :=
  match attempts with
  | a :: rest => if failed a then S (leading_failures rest) else O
  | [] => O
  end.

(** The number of failures in a row at the end of [attempts]. *)
Definition trailing_failures (attempts : list attempt) : nat :=
  leading_failures (rev attempts).

(** Some initial part of [attempts] ends with three failures in a row. *)
Definition three_in_a_row (attempts : list attempt) : Prop :=
  exists before later,
    attempts = (before ++ later)%list /\ (3 <= trailing_failures before)%nat.

(** The generator is at a place outside the heartbeat loop and before
    the capabilities event, and has yielded nothing but the ready event
    and error events. *)
Definition before_capabilities (client_id : string) (s : stream) : Prop :=
  match state s with
  | Suspended AtReady | Suspended AtGrace | Suspended AtError
  | Finished | Propagated _ => True
  | _ => False
  end
  /\ forall chunk, In chunk (chunks s) ->
       chunk = ready_chunk client_id \/ exists e, chunk = error_chunk e.

(** The generator is suspended in the heartbeat loop. *)
Definition in_loop (s : stream) : bool :=
  match state s with
  | Suspended (AtSleep _ _) | Suspended (AtHeartbeat _ _) => true
  | _ => false
  end.

(** The number of heartbeat attempts that have failed so far in a
    generator suspended in the loop; there is none outside it. *)
Definition missed_so_far (s : stream) : nat :=
  match state s with
  | Suspended (AtSleep missed _) | Suspended (AtHeartbeat missed _) => missed
  | _ => O
  end.

(** The stream so far is the ready event, or the ready event and one
    error event, as the place where the generator stands allows. *)
Definition ready_then_error (client_id : string) (s : stream) : Prop :=
  match state s with
  | Suspended AtReady | Suspended AtGrace => chunks s = [ready_chunk client_id]
  | Suspended AtError =>
      exists e, chunks s = [ready_chunk client_id; error_chunk e]
  | Finished | Propagated _ =>
      chunks s = [ready_chunk client_id]
      \/ exists e, chunks s = [ready_chunk client_id; error_chunk e]
  | _ => False
  end.

(** The record of the [finally] clause of the generator (lines 265-266). *)
Definition termination_record (client_id : string) : log_record :=
  {| level := INFO;
     message := [Txt "SSE connection terminated: "; Txt client_id] |}.

Definition terminated (s : stream) : bool :=
  match state s with Suspended _ => false | _ => true end.

(** The generator has logged its termination exactly if it has
    terminated, and then as the last record and only once. *)
Definition termination_logged (client_id : string) (s : stream) : Prop :=
  if terminated s then
    exists earlier,
      stream_log s = (earlier ++ [termination_record client_id])%list
      /\ ~ In (termination_record client_id) earlier
  else ~ In (termination_record client_id) (stream_log s).

(** Stand-ins for [json.dumps] and for the clock of the stream, to run
    the generator on examples. *)
Definition example_dumps : json -> string :=
  fun v => "<" ++ type_name v ++ ">".

Definition example_utcnow : nat -> string :=
  fun _ => "2025-01-01T00:00:00.000000".


(* ===================================================================== *)
(** * Rendering *)
(* ===================================================================== *)

Lemma render_error_plain (v : json) : plain (render_error v) = true.
Proof. unfold render_error. destruct (floats_finite v); reflexivity. Qed.

Lemma plain_is_Exception (e : exn) : plain e = true -> is_Exception e = true.
Proof. unfold plain. intros H. now apply andb_true_iff in H. Qed.

Lemma render_error_is_Exception (v : json) :
  is_Exception (render_error v) = true.
Proof. apply plain_is_Exception, render_error_plain. Qed.

Lemma renderable_result_envelope (id result : json) :
  renderable (result_envelope id result) = renderable id && renderable result.
Proof.
  unfold renderable, result_envelope.
  cbn [floats_finite strings_encodable forallb].
  change (encodable "jsonrpc") with true. change (encodable "2.0") with true.
  change (encodable "id") with true. change (encodable "result") with true.
  destruct (floats_finite id), (floats_finite result), (strings_encodable id),
    (strings_encodable result); reflexivity.
Qed.

Lemma renderable_error_envelope (id : json) (code : Z) (message : string)
  (data : json) :
  renderable (error_envelope id code message data)
  = renderable id && (encodable message && renderable data).
Proof.
  unfold renderable, error_envelope.
  cbn [floats_finite strings_encodable forallb].
  change (encodable "jsonrpc") with true. change (encodable "2.0") with true.
  change (encodable "id") with true. change (encodable "error") with true.
  change (encodable "code") with true. change (encodable "message") with true.
  change (encodable "data") with true.
  destruct (floats_finite id), (floats_finite data), (strings_encodable id),
    (strings_encodable data), (encodable message); reflexivity.
Qed.

Lemma JSONResponse_renders (body : json) (code : Z) :
  renderable body = true -> JSONResponse body code = Ret (sent body code).
Proof. unfold JSONResponse. now intros ->. Qed.

Lemma JSONResponse_fails (body : json) (code : Z) :
  renderable body = false -> JSONResponse body code = Raise (render_error body).
Proof. unfold JSONResponse. now intros ->. Qed.

Section RenderingFacts.
Variable cfg : settings.

Lemma debug_detail_renderable (e : exn) :
  plain e = true -> renderable (debug_detail cfg e) = true.
Proof.
  unfold plain, debug_detail. intros H. apply andb_true_iff in H as [_ H].
  destruct (DEBUG cfg); [|reflexivity].
  unfold renderable. cbn [floats_finite strings_encodable forallb].
  change (encodable "detail") with true. now rewrite H.
Qed.

(** The catch-all renders its answer to every plain exception. *)
Lemma settle_plain (e : exn) :
  plain e = true -> settle cfg (Raise e) = Ret (internal_error_response cfg e).
Proof.
  intros H. cbn [settle]. rewrite (plain_is_Exception e H).
  apply JSONResponse_renders. rewrite renderable_error_envelope.
  now rewrite debug_detail_renderable.
Qed.

Lemma settle_JSONResponse (body : json) (code : Z) :
  settle cfg (JSONResponse body code)
  = if renderable body then Ret (sent body code)
    else Ret (internal_error_response cfg (render_error body)).
Proof.
  unfold JSONResponse. destruct (renderable body); [reflexivity|].
  apply settle_plain, render_error_plain.
Qed.

(** A body that carries the [id] and is renderable but for it, sent from
    the [try] block of a backend method: when the [id] does not render,
    neither does the answer of the [except] clause, and the catch-all
    answers. *)
Lemma settle_in_try (id body : json) (code : Z) :
  renderable body = renderable id ->
  exists e,
    plain e = true
    /\ settle cfg (in_try cfg id (JSONResponse body code))
       = if renderable id then Ret (sent body code)
         else Ret (internal_error_response cfg e).
Proof.
  intros Hb. unfold JSONResponse. rewrite Hb.
  destruct (renderable id) eqn:Hid.
  - exists (render_error body). split; [apply render_error_plain | reflexivity].
  - cbn [in_try]. rewrite render_error_is_Exception.
    rewrite JSONResponse_fails
      by (rewrite renderable_error_envelope, Hid; reflexivity).
    eexists. split; [apply render_error_plain|].
    apply settle_plain, render_error_plain.
Qed.
End RenderingFacts.

(* ===================================================================== *)
(** * The call endpoint *)
(* ===================================================================== *)

Lemma eqb_of_not_in (m : string) (l : list string) (s : string) :
  ~ In m l -> In s l -> String.eqb m s = false.
Proof.
  intros Hm Hs. apply String.eqb_neq. intros ->. exact (Hm Hs).
Qed.

(** In the scope of the module the name [true] is not bound. *)
Lemma true_is_unbound (cfg : settings) :
  load_global (module_globals cfg) "true" = Raise (name_error "true").
Proof. reflexivity. Qed.

Lemma initialize_content_raises (cfg : settings) (id : json) :
  initialize_content (module_globals cfg) id = Raise (name_error "true").
Proof. reflexivity. Qed.

Ltac by_required_parameter method :=
  unfold required_parameter;
  repeat match goal with
  | |- context [String.eqb method ?s] =>
      let E := fresh "E" in
      destruct (String.eqb method s) eqn:E;
      [ apply String.eqb_eq in E; subst method; intros [= <-] | ]
  end;
  [ .. | discriminate ].

Ltac run_handler :=
  cbv [try_except bind ret lift backend_failed logger invalid_params
       Backend.list_tables Backend.discover_data Backend.prepare_query
       Backend.query backend fst snd];
  match goal with
  | |- context [JSONResponse ?c ?code] =>
      destruct (JSONResponse c code) as [? | e]; cbn [in_try fst snd];
      [ | destruct (is_Exception e) ]
  end.

Ltac run_try_block :=
  unfold reply, backend_calls_after, dispatch;
  cbn [String.eqb Ascii.eqb Bool.eqb];
  run_handler.

Section DispatchFacts.
Variable rt : runtime.
Variable cfg : settings.

(** [initialize] never gets to build its response: reading [clientInfo]
    fails, or else the name [true] in the response does. *)
Lemma dispatch_initialize (id : json) (params : dict) :
  exists e,
    plain e = true
    /\ forall w,
         reply (dispatch cfg "initialize" id params) w = Raise e
         /\ backend_calls_after (dispatch cfg "initialize" id params) w
            = backend_calls w.
Proof.
  unfold reply, backend_calls_after, dispatch.
  rewrite String.eqb_refl.
  unfold bind, lift, logger.
  destruct (dict_get_default params "clientInfo" (JDict [])) as [| | | | | |d];
    try (eexists; cbn; repeat split; reflexivity).
Qed.

Lemma dispatch_shutdown (id : json) (params : dict) (w : world) :
  reply (dispatch cfg "shutdown" id params) w
  = JSONResponse (result_envelope id JNull) HTTP_200_OK
  /\ backend_calls_after (dispatch cfg "shutdown" id params) w = backend_calls w.
Proof. split; reflexivity. Qed.

Lemma dispatch_list_tables (id : json) (params : dict) (w : world) :
  reply (dispatch cfg "list_tables" id params) w
  = in_try cfg id
      (JSONResponse
         (result_envelope id
            (JDict [("tables", str_list ["users"; "products"; "orders"])]))
         HTTP_200_OK)
  /\ backend_calls_after (dispatch cfg "list_tables" id params) w
     = (backend_calls w ++ [OpListTables])%list.
Proof. run_try_block; split; reflexivity. Qed.

Lemma dispatch_missing_parameter (method field : string) (id : json)
  (params : dict) (w : world) :
  required_parameter method = Some field ->
  truthy (dict_get params field) = false ->
  reply (dispatch cfg method id params) w
  = in_try cfg id (invalid_params id field)
  /\ backend_calls_after (dispatch cfg method id params) w = backend_calls w.
Proof.
  by_required_parameter method; intros Hf;
    unfold reply, backend_calls_after, dispatch;
    cbn [String.eqb Ascii.eqb Bool.eqb];
    rewrite Hf; cbn [negb]; run_handler; split; reflexivity.
Qed.

Lemma dispatch_with_parameter (method field : string) (id : json)
  (params : dict) :
  required_parameter method = Some field ->
  truthy (dict_get params field) = true ->
  exists result op,
    renderable result = true
    /\ forall w,
         reply (dispatch cfg method id params) w
         = in_try cfg id (JSONResponse (result_envelope id result) HTTP_200_OK)
         /\ backend_calls_after (dispatch cfg method id params) w
            = (backend_calls w ++ [op])%list.
Proof.
  by_required_parameter method; intros Hf;
    do 2 eexists;
    (split;
     [ | intros w; unfold reply, backend_calls_after, dispatch;
         cbn [String.eqb Ascii.eqb Bool.eqb];
         rewrite Hf; cbn [negb];
         cbv [try_except bind ret lift backend_failed logger
              Backend.discover_data Backend.prepare_query Backend.query backend
              fst snd];
         match goal with
         | |- context [JSONResponse (result_envelope id (JDict ?d)) _] =>
             match goal with
             | |- context [in_try _ _ (JSONResponse (result_envelope _ ?R) _)] =>
                 unify R (JDict d)
             end
         end;
         run_handler; split; reflexivity ]).
  all: reflexivity.
Qed.

Lemma dispatch_unknown (method : string) (id : json) (params : dict)
  (w : world) :
  ~ In method known_methods ->
  reply (dispatch cfg method id params) w
  = JSONResponse
      (error_envelope id MethodNotFound "Method not found"
         (JDict [("method", JStr method)]))
      HTTP_200_OK
  /\ backend_calls_after (dispatch cfg method id params) w = backend_calls w.
Proof.
  intros Hm. unfold reply, backend_calls_after, dispatch.
  rewrite !(eqb_of_not_in method known_methods) by (assumption || (cbn; tauto)).
  split; reflexivity.
Qed.

(** A method is one of the six of the chain, or none of them. *)
Lemma method_cases (method : string) :
  method = "initialize" \/ method = "shutdown" \/ method = "list_tables"
  \/ (exists field, required_parameter method = Some field)
  \/ ~ In method known_methods.
Proof.
  unfold required_parameter.
  destruct (String.eqb method "initialize") eqn:E1;
    [apply String.eqb_eq in E1; tauto|].
  destruct (String.eqb method "shutdown") eqn:E2;
    [apply String.eqb_eq in E2; tauto|].
  destruct (String.eqb method "list_tables") eqn:E3;
    [apply String.eqb_eq in E3; tauto|].
  destruct (String.eqb method "discover_data") eqn:E4; [eauto 6|].
  destruct (String.eqb method "prepare_query") eqn:E5; [eauto 6|].
  destruct (String.eqb method "query") eqn:E6; [eauto 6|].
  do 4 right. cbn. apply String.eqb_neq in E1, E2, E3, E4, E5, E6.
  intuition congruence.
Qed.
End DispatchFacts.

Section EndpointFacts.
Variable rt : runtime.
Variable cfg : settings.

Lemma renderable_invalid_params (method field : string) (id : json) :
  required_parameter method = Some field ->
  renderable
    (error_envelope id (-32602) "Invalid params"
       (JDict [("detail", JStr ("Missing required parameter: " ++ field))]))
  = renderable id.
Proof.
  by_required_parameter method; rewrite renderable_error_envelope;
    destruct (renderable id); reflexivity.
Qed.

Lemma renderable_method_not_found (method : string) (id : json) :
  renderable
    (error_envelope id MethodNotFound "Method not found"
       (JDict [("method", JStr method)]))
  = renderable id && encodable method.
Proof.
  rewrite renderable_error_envelope. unfold renderable at 2.
  cbn [floats_finite strings_encodable forallb].
  change (encodable "method") with true.
  change (encodable "Method not found") with true.
  destruct (renderable id), (encodable method); reflexivity.
Qed.

(** Whatever the method, the catch-all leaves a response that does not
    depend on the world and is of one of the five kinds, with one of
    [result] and [error].  Outside [initialize], when the [id] and the
    name of the method can be rendered, it carries the [id] of the
    request with status 200; when one of the two cannot be rendered it
    is the answer of the catch-all. *)
Lemma dispatch_settled (method : string) (id : json) (params : dict) :
  exists resp,
    (forall w, settle cfg (reply (dispatch cfg method id params) w) = Ret resp)
    /\ answer cfg resp
    /\ exactly_one_of_result_error (content resp) = true
    /\ (method <> "initialize" -> renderable id = true ->
        encodable method = true ->
        envelope_id (content resp) = Some id
        /\ status_code resp = HTTP_200_OK)
    /\ (renderable id && encodable method = false ->
        exists e, resp = internal_error_response cfg e).
Proof.
  destruct (method_cases method) as [-> | [-> | [-> | [[field Hf] | Hm]]]].
  - destruct (dispatch_initialize cfg id params) as (e & He & Hd).
    exists (internal_error_response cfg e). split; [|split; [|split; [|split]]].
    + intros w. destruct (Hd w) as [-> _]. now apply settle_plain.
    + apply answer_internal_error.
    + reflexivity.
    + congruence.
    + eauto.
  - assert (Hr : renderable (result_envelope id JNull) = renderable id).
    { rewrite renderable_result_envelope. apply andb_true_r. }
    destruct (renderable id) eqn:Hid.
    + exists (sent (result_envelope id JNull) HTTP_200_OK).
      split; [|split; [|split; [|split]]]; try reflexivity.
      * intros w. destruct (dispatch_shutdown cfg id params w) as [-> _].
        rewrite settle_JSONResponse, Hr. reflexivity.
      * apply answer_result.
      * now split.
      * intros H; vm_compute in H; discriminate H.
    + exists (internal_error_response cfg
                (render_error (result_envelope id JNull))).
      split; [|split; [|split; [|split]]]; try reflexivity.
      * intros w. destruct (dispatch_shutdown cfg id params w) as [-> _].
        rewrite settle_JSONResponse, Hr. reflexivity.
      * apply answer_internal_error.
      * discriminate.
      * eauto.
  - set (tables := JDict [("tables", str_list ["users"; "products"; "orders"])]).
    assert (Hr : renderable (result_envelope id tables) = renderable id).
    { rewrite renderable_result_envelope. apply andb_true_r. }
    destruct (settle_in_try cfg id _ HTTP_200_OK Hr) as (e & He & Hs).
    destruct (renderable id) eqn:Hid.
    + exists (sent (result_envelope id tables) HTTP_200_OK).
      split; [|split; [|split; [|split]]]; try reflexivity.
      * intros w. destruct (dispatch_list_tables cfg id params w) as [-> _].
        exact Hs.
      * apply answer_result.
      * now split.
      * intros H; vm_compute in H; discriminate H.
    + exists (internal_error_response cfg e).
      split; [|split; [|split; [|split]]]; try reflexivity.
      * intros w. destruct (dispatch_list_tables cfg id params w) as [-> _].
        exact Hs.
      * apply answer_internal_error.
      * discriminate.
      * eauto.
  - assert (Hme : encodable method = true).
    { revert Hf. by_required_parameter method; reflexivity. }
    destruct (truthy (dict_get params field)) eqn:Ht.
    + destruct (dispatch_with_parameter cfg _ _ id _ Hf Ht)
        as (result & op & Hres & Hd).
      assert (Hr : renderable (result_envelope id result) = renderable id).
      { rewrite renderable_result_envelope, Hres. apply andb_true_r. }
      destruct (settle_in_try cfg id _ HTTP_200_OK Hr) as (e & He & Hs).
      destruct (renderable id) eqn:Hid.
      * exists (sent (result_envelope id result) HTTP_200_OK).
        split; [|split; [|split; [|split]]]; try reflexivity.
        -- intros w. destruct (Hd w) as [-> _]. exact Hs.
        -- apply answer_result.
        -- now split.
        -- intros H; rewrite Hme in H; discriminate H.
      * exists (internal_error_response cfg e).
        split; [|split; [|split; [|split]]]; try reflexivity.
        -- intros w. destruct (Hd w) as [-> _]. exact Hs.
        -- apply answer_internal_error.
        -- discriminate.
        -- eauto.
    + pose proof (renderable_invalid_params _ _ id Hf) as Hr.
      destruct (settle_in_try cfg id _ HTTP_200_OK Hr) as (e & He & Hs).
      destruct (renderable id) eqn:Hid.
      * eexists (sent _ HTTP_200_OK).
        split; [|split; [|split; [|split]]].
        -- intros w.
           destruct (dispatch_missing_parameter cfg _ _ id _ w Hf Ht) as [-> _].
           exact Hs.
        -- apply answer_invalid_params.
        -- reflexivity.
        -- now split.
        -- intros H; rewrite Hme in H; discriminate H.
      * exists (internal_error_response cfg e).
        split; [|split; [|split; [|split]]]; try reflexivity.
        -- intros w.
           destruct (dispatch_missing_parameter cfg _ _ id _ w Hf Ht) as [-> _].
           exact Hs.
        -- apply answer_internal_error.
        -- discriminate.
        -- eauto.
  - pose proof (renderable_method_not_found method id) as Hr.
    destruct (renderable
                (error_envelope id MethodNotFound "Method not found"
                   (JDict [("method", JStr method)]))) eqn:Hc.
    + symmetry in Hr. apply andb_true_iff in Hr as [Hid Hme].
      eexists (sent _ HTTP_200_OK).
      split; [|split; [|split; [|split]]].
      * intros w. destruct (dispatch_unknown cfg _ id params w Hm) as [-> _].
        rewrite settle_JSONResponse, Hc. reflexivity.
      * apply answer_method_not_found.
      * reflexivity.
      * now split.
      * intros H; rewrite Hid, Hme in H; discriminate H.
    + eexists (internal_error_response cfg _).
      split; [|split; [|split; [|split]]].
      * intros w. destruct (dispatch_unknown cfg _ id params w Hm) as [-> _].
        rewrite settle_JSONResponse, Hc. reflexivity.
      * apply answer_internal_error.
      * reflexivity.
      * intros _ Hid Hme. rewrite Hid, Hme in Hr. discriminate.
      * eauto.
Qed.

(** A body that passes validation is answered by [dispatch], run after
    the handler has drawn its uuid, read the clock and logged. *)
Lemma mcp_post_valid (body : json) (r : MCPRequest) (w : world) :
  MCPRequest_init rt body = Ret r ->
  exists w1,
    backend_calls w1 = backend_calls w
    /\ reply (mcp_post rt cfg (JsonBody body)) w
       = settle cfg (reply (dispatch cfg (rpc_method r) (rpc_id r)
                              (params_or_empty (rpc_params r))) w1)
    /\ backend_calls_after (mcp_post rt cfg (JsonBody body)) w
       = backend_calls_after (dispatch cfg (rpc_method r) (rpc_id r)
                                (params_or_empty (rpc_params r))) w1.
Proof.
  intros Hinit.
  unfold reply, backend_calls_after, mcp_post, parse_and_dispatch, try_finally,
    try_except, unexpected_error, bind, lift.
  cbn [uuid4 time_time request_json]. rewrite Hinit.
  cbn [logger uuid_source uuid_drawn clock clock_read log backend_calls].
  match goal with
  | |- context [dispatch cfg ?m ?i ?p ?w1] =>
      exists w1; destruct (dispatch cfg m i p w1) as [w2 [resp | e]]
  end.
  - repeat split; reflexivity.
  - cbn [settle snd fst]. destruct (is_Exception e); repeat split; reflexivity.
Qed.

(** [MCPRequest( **body )] raises nothing but the two errors of a
    rejected body. *)
Lemma MCPRequest_init_raises (body : json) (e : exn) :
  MCPRequest_init rt body = Raise e -> is_Exception e = true.
Proof.
  unfold MCPRequest_init.
  destruct body; try (intros [= <-]; reflexivity).
  destruct (validate_fields rt entries); [discriminate|].
  intros [= <-]; reflexivity.
Qed.

Lemma mcp_post_rejected (body : json) (e : exn) (w : world) :
  MCPRequest_init rt body = Raise e ->
  reply (mcp_post rt cfg (JsonBody body)) w
  = settle cfg
      (JSONResponse
         (error_envelope (recovered_id body) ParseError "Parse error"
            (debug_detail cfg e))
         HTTP_400_BAD_REQUEST)
  /\ backend_calls_after (mcp_post rt cfg (JsonBody body)) w = backend_calls w.
Proof.
  intros Hinit. pose proof (MCPRequest_init_raises _ _ Hinit) as He.
  unfold reply, backend_calls_after, mcp_post, parse_and_dispatch, try_finally,
    try_except, unexpected_error, bind, lift.
  cbn [uuid4 time_time request_json]. rewrite Hinit, He.
  destruct body; cbv [parse_failed bind lift logger display dict_display obind
                      load_local method_get lit str_lit fst snd recovered_id
                      error_envelope dict_get dict_get_default ParseError];
    match goal with
    | |- context [JSONResponse ?c ?code] =>
        destruct (JSONResponse c code) as [? | e']; cbn [settle fst snd];
        [ | destruct (is_Exception e') ]
    end; split; reflexivity.
Qed.

(** A body that [request.json()] cannot decode: the handler of the
    inner [try] reads [body], which was never assigned. *)
Lemma mcp_post_bad_body (reason : string) (w : world) :
  reply (mcp_post rt cfg (BadBody reason)) w
  = Ret (internal_error_response cfg (unbound_local_error "body"))
  /\ backend_calls_after (mcp_post rt cfg (BadBody reason)) w = backend_calls w.
Proof.
  assert (H : reply (mcp_post rt cfg (BadBody reason)) w
              = settle cfg (Raise (unbound_local_error "body"))
              /\ backend_calls_after (mcp_post rt cfg (BadBody reason)) w
                 = backend_calls w).
  { unfold reply, backend_calls_after.
    cbv -[JSONResponse debug_detail].
    match goal with
    | |- context [JSONResponse ?c ?code] => destruct (JSONResponse c code)
    end; split; reflexivity. }
  destruct H as [-> ->]. split; [|reflexivity].
  apply settle_plain. reflexivity.
Qed.

(** A validated [id] of one of the two allowed types is the one sent. *)
Lemma validated_id_is_request_id (kw : dict) (r : MCPRequest) (id : json) :
  validate_fields rt kw = Some r ->
  dict_lookup "id" kw = Some id ->
  well_typed_id id = true ->
  rpc_id r = id.
Proof.
  unfold validate_fields. intros Hv Hid Hty. rewrite Hid in Hv.
  destruct id; try discriminate; cbn [validate_id] in Hv;
    repeat match type of Hv with
           | match ?x with _ => _ end = _ => destruct x; try discriminate
           end;
    injection Hv as <-; reflexivity.
Qed.

(** Every call is answered, with an answer of one of the five kinds. *)
Lemma reply_is_an_answer (req : request) (w : world) :
  exists resp,
    reply (mcp_post rt cfg req) w = Ret resp
    /\ answer cfg resp
    /\ exactly_one_of_result_error (content resp) = true.
Proof.
  destruct req as [reason | body].
  - destruct (mcp_post_bad_body reason w) as [-> _].
    eexists; split; [reflexivity | split; [apply answer_internal_error|]].
    reflexivity.
  - destruct (MCPRequest_init rt body) as [r | e] eqn:Hinit.
    + destruct (mcp_post_valid body r w Hinit) as (w1 & _ & -> & _).
      destruct (dispatch_settled (rpc_method r) (rpc_id r)
                  (params_or_empty (rpc_params r))) as (resp & Hd & Ha & Hx & _).
      exists resp. split; [apply Hd | split; [exact Ha | exact Hx]].
    + destruct (mcp_post_rejected body e w Hinit) as [-> _].
      rewrite settle_JSONResponse.
      destruct (renderable _); eexists;
        (split; [reflexivity | split; [|reflexivity]]).
      * apply answer_parse_error.
      * apply answer_internal_error.
Qed.

(** The answer to a call is the same in every world. *)
Lemma reply_ignores_world (req : request) (w1 w2 : world) :
  reply (mcp_post rt cfg req) w1 = reply (mcp_post rt cfg req) w2.
Proof.
  destruct req as [reason | body].
  - destruct (mcp_post_bad_body reason w1) as [-> _].
    destruct (mcp_post_bad_body reason w2) as [-> _]. reflexivity.
  - destruct (MCPRequest_init rt body) as [r | e] eqn:Hinit.
    + destruct (mcp_post_valid body r w1 Hinit) as (w1' & _ & -> & _).
      destruct (mcp_post_valid body r w2 Hinit) as (w2' & _ & -> & _).
      destruct (dispatch_settled (rpc_method r) (rpc_id r)
                  (params_or_empty (rpc_params r))) as (resp & Hd & _).
      now rewrite !Hd.
    + destruct (mcp_post_rejected body e w1 Hinit) as [-> _].
      destruct (mcp_post_rejected body e w2 Hinit) as [-> _]. reflexivity.
Qed.
End EndpointFacts.

(** ** What a call leaves behind *)

Lemma extends_refl (l : list log_record) : extends l l.
Proof. exists []. now rewrite app_nil_r. Qed.

Lemma extends_snoc (l0 l1 : list log_record) (r : log_record) :
  extends l0 l1 -> extends l0 (l1 ++ [r]).
Proof. intros [a ->]. exists (a ++ [r])%list. now rewrite app_assoc. Qed.

Lemma extends_trans (l0 l1 l2 : list log_record) :
  extends l0 l1 -> extends l1 l2 -> extends l0 l2.
Proof. intros [a ->] [b ->]. exists (a ++ b)%list. now rewrite app_assoc. Qed.

Lemma only_logged_trans (w0 w1 w2 : world) :
  only_logged w0 w1 -> only_logged w1 w2 -> only_logged w0 w2.
Proof.
  intros (A1 & A2 & A3 & A4 & A5) (B1 & B2 & B3 & B4 & B5).
  repeat split; try congruence. eapply extends_trans; eassumption.
Qed.

Ltac split_renders :=
  repeat match goal with
  | |- context [JSONResponse ?c ?k] => destruct (JSONResponse c k) as [? | ?]
  | |- context [is_Exception ?e] => is_var e; destruct (is_Exception e)
  end.

Ltac show_only_logged :=
  repeat split; try reflexivity; cbn [log fst];
  repeat apply extends_snoc; apply extends_refl.

Lemma dispatch_only_logs (cfg : settings) (method : string) (id : json)
  (params : dict) (w : world) :
  only_logged w (fst (dispatch cfg method id params w)).
Proof.
  destruct (method_cases method) as [-> | [-> | [-> | [[field Hf] | Hm]]]].
  - unfold dispatch. rewrite String.eqb_refl. unfold bind, lift, logger.
    destruct (dict_get_default params "clientInfo" (JDict [])); show_only_logged.
  - unfold dispatch. cbn [String.eqb Ascii.eqb Bool.eqb].
    unfold bind, lift, logger. split_renders; show_only_logged.
  - unfold dispatch. cbn [String.eqb Ascii.eqb Bool.eqb].
    cbv [try_except bind ret lift backend_failed logger Backend.list_tables
         backend fst snd].
    split_renders; show_only_logged.
  - revert Hf. by_required_parameter method;
      unfold dispatch; cbn [String.eqb Ascii.eqb Bool.eqb];
      cbv [try_except bind ret lift backend_failed logger invalid_params
           Backend.discover_data Backend.prepare_query Backend.query backend
           fst snd];
      match goal with
      | |- context [truthy ?v] => destruct (truthy v)
      end; cbv [negb fst snd]; split_renders; cbv [fst snd];
      show_only_logged.
  - unfold dispatch.
    rewrite !(eqb_of_not_in method known_methods) by (assumption || (cbn; tauto)).
    unfold bind, lift, logger. split_renders; show_only_logged.
Qed.

(** The [try] block and the catch-all of [mcp_post] draw no uuid and do
    not read the clock. *)
Lemma try_block_only_logs (rt : runtime) (cfg : settings) (request_id : string)
  (req : request) (w : world) :
  only_logged w
    (fst (try_except (parse_and_dispatch rt cfg request_id req)
            (unexpected_error cfg) w)).
Proof.
  destruct req as [reason | body].
  - cbv -[JSONResponse debug_detail extends uuid_source uuid_drawn clock
          clock_read log app].
    split_renders; show_only_logged.
  - unfold try_except, parse_and_dispatch. cbn [request_json].
    destruct (MCPRequest_init rt body) as [r | e] eqn:Hinit.
    + unfold bind at 1. cbn [logger].
      match goal with
      | |- context [dispatch cfg ?m ?i ?p ?w1] =>
          pose proof (dispatch_only_logs cfg m i p w1) as Hd;
          destruct (dispatch cfg m i p w1) as [w2 [resp | e]]
      end; cbn [fst] in Hd.
      * eapply only_logged_trans; [|exact Hd]. show_only_logged.
      * destruct (is_Exception e).
        -- eapply only_logged_trans; [|eapply only_logged_trans; [exact Hd|]];
             unfold unexpected_error, bind, lift, logger;
             split_renders; show_only_logged.
        -- eapply only_logged_trans; [|exact Hd]. show_only_logged.
    + rewrite (MCPRequest_init_raises rt body e Hinit).
      destruct body;
        cbv [parse_failed unexpected_error bind lift logger display
             dict_display obind load_local method_get lit str_lit fst snd];
        split_renders; show_only_logged.
Qed.

(** The world a call leaves, from the world its [try] block leaves. *)
Lemma mcp_post_world (rt : runtime) (cfg : settings) (req : request)
  (w : world) :
  fst (mcp_post rt cfg req w)
  = let w2 :=
      fst (try_except
             (parse_and_dispatch rt cfg (uuid_source w (uuid_drawn w)) req)
             (unexpected_error cfg)
             {| uuid_source := uuid_source w; uuid_drawn := S (uuid_drawn w);
                clock := clock w; clock_read := S (clock_read w);
                log := log w; backend_calls := backend_calls w |}) in
    {| uuid_source := uuid_source w2; uuid_drawn := uuid_drawn w2;
       clock := clock w2; clock_read := S (clock_read w2);
       log := log w2
              ++ [{| level := INFO;
                     message := [Txt "MCP request ";
                                 Txt (uuid_source w (uuid_drawn w));
                                 Txt " processed in ";
                                 Seconds (clock w2 (clock_read w2)
                                          - clock w (clock_read w));
                                 Txt "s"] |}];
       backend_calls := backend_calls w2 |}.
Proof.
  unfold mcp_post, try_finally, bind, uuid4, time_time, logger.
  cbn [uuid_source uuid_drawn clock clock_read log backend_calls].
  destruct (try_except _ _ _) as [w2 r]. reflexivity.
Qed.

(** A call draws one uuid, reads the clock twice and only adds to the
    log, the record of the [finally] clause last. *)
Lemma mcp_post_accounts (rt : runtime) (cfg : settings) (req : request)
  (w : world) :
  uuid_source (fst (mcp_post rt cfg req w)) = uuid_source w
  /\ uuid_drawn (fst (mcp_post rt cfg req w)) = S (uuid_drawn w)
  /\ clock (fst (mcp_post rt cfg req w)) = clock w
  /\ clock_read (fst (mcp_post rt cfg req w)) = S (S (clock_read w))
  /\ exists before,
       log (fst (mcp_post rt cfg req w)) = (before ++ [processed_record w])%list
       /\ extends (log w) before.
Proof.
  rewrite mcp_post_world.
  match goal with
  | |- context [try_except ?b ?h ?w1] =>
      pose proof (try_block_only_logs rt cfg (uuid_source w (uuid_drawn w))
                    req w1) as (A1 & A2 & A3 & A4 & A5);
      destruct (try_except b h w1) as [w2 r]
  end.
  cbn [fst uuid_source uuid_drawn clock clock_read log] in *.
  split; [exact A1|]. split; [exact A2|]. split; [exact A3|].
  split; [now rewrite A4|].
  exists (log w2). split; [|exact A5].
  unfold processed_record. rewrite A3, A4. reflexivity.
Qed.

(** ** The call endpoint behind the middleware *)

Section ServeFacts.
Variable rt : runtime.
Variable cfg : settings.

(** The middleware hands the answer of [mcp_post] on, counts the request
    under [POST] and [/] and observes one latency. *)
Lemma post_root_through (req : request) (p : process) :
  exists resp dt,
    snd (post_root rt cfg req p) = Ret resp
    /\ (forall w, reply (mcp_post rt cfg req) w = Ret resp)
    /\ request_count (the_metrics (fst (post_root rt cfg req p))) "POST" "/"
       = S (request_count (the_metrics p) "POST" "/")
    /\ (forall m e,
          String.eqb m "POST" && String.eqb e "/" = false ->
          request_count (the_metrics (fst (post_root rt cfg req p))) m e
          = request_count (the_metrics p) m e)
    /\ request_latency (the_metrics (fst (post_root rt cfg req p)))
       = (request_latency (the_metrics p) ++ [("POST", "/", dt)])%list.
Proof.
  destruct (reply_is_an_answer rt cfg req (the_world p)) as (resp & Hr0 & _).
  assert (Hall : forall w, reply (mcp_post rt cfg req) w = Ret resp).
  { intros w. now rewrite (reply_ignores_world rt cfg req w (the_world p)). }
  exists resp.
  unfold post_root, add_timing_and_logging, pbind, ptry_except, in_world,
    count_request, observe_latency, pret.
  cbn [time_time uuid4 logger the_world the_metrics].
  match goal with
  | |- context [mcp_post rt cfg req ?w1] =>
      pose proof (Hall w1) as H1; unfold reply in H1;
      destruct (mcp_post rt cfg req w1) as [w2 r]
  end.
  cbn [snd] in H1. subst r.
  cbn [the_world the_metrics fst snd request_count request_latency].
  eexists. split; [reflexivity|]. split; [exact Hall|]. split; [|split].
  - reflexivity.
  - intros m e Hme. now rewrite Hme.
  - reflexivity.
Qed.

(** The world of the process around a call: the middleware reads the
    clock, draws a uuid and logs, the handler runs, and the middleware
    reads the clock twice and logs. *)
Lemma post_root_world (req : request) (p : process) :
  exists w1,
    (uuid_source w1 = uuid_source (the_world p)
     /\ uuid_drawn w1 = S (uuid_drawn (the_world p))
     /\ clock w1 = clock (the_world p)
     /\ clock_read w1 = S (clock_read (the_world p))
     /\ extends (log (the_world p)) (log w1)
     /\ backend_calls w1 = backend_calls (the_world p))
    /\ uuid_source (the_world (fst (post_root rt cfg req p)))
       = uuid_source (fst (mcp_post rt cfg req w1))
    /\ uuid_drawn (the_world (fst (post_root rt cfg req p)))
       = uuid_drawn (fst (mcp_post rt cfg req w1))
    /\ clock (the_world (fst (post_root rt cfg req p)))
       = clock (fst (mcp_post rt cfg req w1))
    /\ clock_read (the_world (fst (post_root rt cfg req p)))
       = S (S (clock_read (fst (mcp_post rt cfg req w1))))
    /\ extends (log (fst (mcp_post rt cfg req w1)))
         (log (the_world (fst (post_root rt cfg req p))))
    /\ backend_calls (the_world (fst (post_root rt cfg req p)))
       = backend_calls (fst (mcp_post rt cfg req w1)).
Proof.
  destruct (reply_is_an_answer rt cfg req (the_world p)) as (resp & Hr0 & _).
  assert (Hall : forall w, reply (mcp_post rt cfg req) w = Ret resp).
  { intros w. now rewrite (reply_ignores_world rt cfg req w (the_world p)). }
  unfold post_root, add_timing_and_logging, pbind, ptry_except, in_world,
    count_request, observe_latency, pret.
  cbn [time_time uuid4 logger the_world the_metrics].
  match goal with
  | |- context [mcp_post rt cfg req ?w1] =>
      exists w1; pose proof (Hall w1) as H1; unfold reply in H1;
      destruct (mcp_post rt cfg req w1) as [w2 r]
  end.
  cbn [snd] in H1. subst r.
  cbn [the_world the_metrics fst snd uuid_source uuid_drawn clock clock_read
       log backend_calls].
  repeat split; try reflexivity; apply extends_snoc; apply extends_refl.
Qed.

Lemma post_root_answer (req : request) (p : process) (w : world) :
  snd (post_root rt cfg req p) = reply (mcp_post rt cfg req) w.
Proof.
  destruct (post_root_through req p) as (resp & dt & -> & Hall & _).
  now rewrite Hall.
Qed.

(** Behind the middleware a call draws two uuids and reads the clock
    five times. *)
Lemma post_root_accounts (req : request) (p : process) :
  uuid_source (the_world (fst (post_root rt cfg req p)))
  = uuid_source (the_world p)
  /\ uuid_drawn (the_world (fst (post_root rt cfg req p)))
     = S (S (uuid_drawn (the_world p)))
  /\ clock (the_world (fst (post_root rt cfg req p))) = clock (the_world p)
  /\ clock_read (the_world (fst (post_root rt cfg req p)))
     = (5 + clock_read (the_world p))%nat
  /\ extends (log (the_world p))
       (log (the_world (fst (post_root rt cfg req p)))).
Proof.
  destruct (post_root_world req p)
    as (w1 & (A1 & A2 & A3 & A4 & A5 & _) & B1 & B2 & B3 & B4 & B5 & _).
  destruct (mcp_post_accounts rt cfg req w1)
    as (C1 & C2 & C3 & C4 & before & C5 & C6).
  rewrite B1, B2, B3, B4, C1, C2, C3, C4, A1, A2, A3, A4.
  repeat split.
  eapply extends_trans; [exact A5|].
  eapply extends_trans; [|exact B5].
  rewrite C5. apply extends_snoc. exact C6.
Qed.

(** The backend trace of the process after a call is the one the
    handler leaves, run on the trace the process had. *)
Lemma post_root_backend (req : request) (p : process) :
  exists w1,
    backend_calls w1 = backend_calls (the_world p)
    /\ backend_calls (the_world (fst (post_root rt cfg req p)))
       = backend_calls_after (mcp_post rt cfg req) w1.
Proof.
  destruct (post_root_world req p)
    as (w1 & (_ & _ & _ & _ & _ & A6) & _ & _ & _ & _ & _ & B6).
  exists w1. split; [exact A6 | exact B6].
Qed.

Lemma after_cons (req : request) (history : list request) (p : process) :
  after rt cfg (req :: history) p
  = after rt cfg history (fst (post_root rt cfg req p)).
Proof.
  unfold after. cbn [serve].
  destruct (post_root rt cfg req p) as [p' r]. cbn [fst].
  destruct (serve rt cfg history p') as [p'' rs]. reflexivity.
Qed.

Lemma replies_cons (req : request) (rest : list request) (p : process) :
  replies rt cfg (req :: rest) p
  = snd (post_root rt cfg req p)
      :: replies rt cfg rest (fst (post_root rt cfg req p)).
Proof.
  unfold replies. cbn [serve].
  destruct (post_root rt cfg req p) as [p' r]. cbn [fst snd].
  destruct (serve rt cfg rest p') as [p'' rs]. reflexivity.
Qed.

(** The i-th answer of the process is the handler's answer, in any
    world. *)
Lemma nth_reply (reqs : list request) (i : nat) (req : request) (p : process)
  (w : world) :
  nth_error reqs i = Some req ->
  nth_error (replies rt cfg reqs p) i = Some (reply (mcp_post rt cfg req) w).
Proof.
  revert i p. induction reqs as [| r0 rest IH]; intros [| i] p H;
    try discriminate.
  - injection H as ->. rewrite replies_cons. cbn [nth_error].
    f_equal. apply post_root_answer.
  - rewrite replies_cons. cbn [nth_error]. now apply IH.
Qed.

Lemma replies_length (reqs : list request) (p : process) :
  length (replies rt cfg reqs p) = length reqs.
Proof.
  revert p. induction reqs as [| req rest IH]; intros p; [reflexivity|].
  rewrite replies_cons. cbn [length]. now rewrite IH.
Qed.

(** The answer of the call
    [{"jsonrpc": "2.0", "id": 1, "method": "initialize", "params": {}}]. *)
Lemma initialize_call_reply (w : world) :
  reply (mcp_post rt cfg (call "initialize" (JInt 1) (JDict []))) w
  = Ret (internal_error_response cfg (name_error "true")).
Proof.
  assert (Hinit : MCPRequest_init rt
                    (JDict [("jsonrpc", JStr "2.0"); ("id", JInt 1);
                            ("method", JStr "initialize");
                            ("params", JDict [])])
                  = Ret {| rpc_jsonrpc := "2.0"; rpc_id := JInt 1;
                           rpc_method := "initialize";
                           rpc_params := Some [] |}) by reflexivity.
  destruct (mcp_post_valid rt cfg _ _ w Hinit) as (w1 & _ & Hr & _).
  unfold call. rewrite Hr.
  change (settle cfg (Raise (name_error "true"))
          = Ret (internal_error_response cfg (name_error "true"))).
  apply settle_plain. reflexivity.
Qed.
End ServeFacts.

(* ===================================================================== *)
(** * The call endpoint *)
(* ===================================================================== *)

(** The scenarios of the handshake, a query and a missing parameter. *)
Example scenario_initialize :
  reply (mcp_post example_runtime example_settings
           (call "initialize" (JInt 1) (JDict []))) fresh_world
  = Ret {| status_code := 500;
           content := JDict [("jsonrpc", JStr "2.0"); ("id", JNull);
                             ("error", JDict [("code", JInt (-32603));
                                              ("message", JStr "Internal error");
                                              ("data", JNull)])] |}.
Proof. reflexivity. Qed.

Example scenario_query :
  reply (mcp_post example_runtime example_settings
           (call "query" (JInt 2) (JDict [("query", JStr "SELECT 1")])))
    fresh_world
  = Ret {| status_code := 200;
           content := JDict [("jsonrpc", JStr "2.0"); ("id", JInt 2);
                             ("result",
                              JDict [("columns", JList [JStr "id"; JStr "name"]);
                                     ("rows",
                                      JList [JList [JInt 1; JStr "Example"];
                                             JList [JInt 2; JStr "Test"]])])] |}.
Proof. reflexivity. Qed.

Example scenario_discover_data_without_table :
  reply (mcp_post example_runtime example_settings
           (call "discover_data" (JInt 3) (JDict []))) fresh_world
  = Ret {| status_code := 200;
           content := JDict [("jsonrpc", JStr "2.0"); ("id", JInt 3);
                             ("error",
                              JDict [("code", JInt (-32602));
                                     ("message", JStr "Invalid params");
                                     ("data",
                                      JDict [("detail",
                                              JStr "Missing required parameter: table")])])] |}.
Proof. reflexivity. Qed.

Example scenario_body_without_id :
  reply (mcp_post example_runtime example_settings
           (JsonBody (JDict [("method", JStr "list_tables")]))) fresh_world
  = Ret {| status_code := 400;
           content := JDict [("jsonrpc", JStr "2.0"); ("id", JNull);
                             ("error", JDict [("code", JInt (-32700));
                                              ("message", JStr "Parse error");
                                              ("data", JNull)])] |}.
Proof. reflexivity. Qed.

(** Calls whose answer cannot be rendered.  The [id] ["\ud800"] is a
    string, so the body passes validation; the response that echoes it
    cannot be encoded, and the catch-all answers.  For [list_tables]
    the backend has run by then. *)
Example scenario_surrogate_id_shutdown :
  reply (mcp_post example_runtime example_settings
           (JsonBody (JDict [("id", JStr lone_surrogate);
                             ("method", JStr "shutdown")]))) fresh_world
  = Ret {| status_code := 500;
           content := JDict [("jsonrpc", JStr "2.0"); ("id", JNull);
                             ("error", JDict [("code", JInt (-32603));
                                              ("message", JStr "Internal error");
                                              ("data", JNull)])] |}.
Proof. reflexivity. Qed.

Example scenario_surrogate_id_list_tables :
  reply (mcp_post example_runtime example_settings
           (JsonBody (JDict [("id", JStr lone_surrogate);
                             ("method", JStr "list_tables")]))) fresh_world
  = Ret {| status_code := 500;
           content := JDict [("jsonrpc", JStr "2.0"); ("id", JNull);
                             ("error", JDict [("code", JInt (-32603));
                                              ("message", JStr "Internal error");
                                              ("data", JNull)])] |}
  /\ backend_calls_after
       (mcp_post example_runtime example_settings
          (JsonBody (JDict [("id", JStr lone_surrogate);
                            ("method", JStr "list_tables")]))) fresh_world
     = [OpListTables].
Proof. split; reflexivity. Qed.

Example scenario_surrogate_id_query_without_query :
  reply (mcp_post example_runtime example_settings
           (JsonBody (JDict [("id", JStr lone_surrogate);
                             ("method", JStr "query")]))) fresh_world
  = Ret {| status_code := 500;
           content := JDict [("jsonrpc", JStr "2.0"); ("id", JNull);
                             ("error", JDict [("code", JInt (-32603));
                                              ("message", JStr "Internal error");
                                              ("data", JNull)])] |}.
Proof. reflexivity. Qed.

Example scenario_surrogate_method :
  reply (mcp_post example_runtime example_settings
           (JsonBody (JDict [("id", JInt 1);
                             ("method", JStr lone_surrogate)]))) fresh_world
  = Ret {| status_code := 500;
           content := JDict [("jsonrpc", JStr "2.0"); ("id", JNull);
                             ("error", JDict [("code", JInt (-32603));
                                              ("message", JStr "Internal error");
                                              ("data", JNull)])] |}.
Proof. reflexivity. Qed.

(** The [id] [1e400] decodes to the float infinity and fails
    validation; the ParseError response that echoes it cannot be
    rendered either. *)
Example scenario_infinite_id :
  reply (mcp_post example_runtime example_settings
           (JsonBody (JDict [("id", JFloat (S754_infinity false));
                             ("method", JStr "list_tables")]))) fresh_world
  = Ret {| status_code := 500;
           content := JDict [("jsonrpc", JStr "2.0"); ("id", JNull);
                             ("error", JDict [("code", JInt (-32603));
                                              ("message", JStr "Internal error");
                                              ("data", JNull)])] |}.
Proof. reflexivity. Qed.

(** ** The envelope of every answer *)

(** C1.  Whatever the body of a call (bytes that do not decode, a value
    that is no mapping, a mapping without [id], any method), the handler
    returns a response, and the body of the response has exactly one of
    the keys [result] and [error]. *)
Theorem every_reply_is_an_envelope (rt : runtime) (cfg : settings)
  (req : request) (w : world) :
  exists resp,
    reply (mcp_post rt cfg req) w = Ret resp
    /\ exactly_one_of_result_error (content resp) = true.
Proof.
  destruct (reply_is_an_answer rt cfg req w) as (resp & Hr & _ & Hx).
  exists resp. split; [exact Hr | exact Hx].
Qed.

(** X1.  The HTTP status and the error code go together: 500 with
    InternalError, 400 with ParseError, and 200 with a result, with
    InvalidParams or with MethodNotFound.  No answer has another code
    (ApplicationError is never sent), and every answer carries
    ["jsonrpc": "2.0"]. *)
Theorem every_reply_is_classified (rt : runtime) (cfg : settings)
  (req : request) (w : world) :
  exists resp,
    reply (mcp_post rt cfg req) w = Ret resp
    /\ envelope_jsonrpc (content resp) = Some (JStr "2.0")
    /\ ((status_code resp = HTTP_500_INTERNAL_SERVER_ERROR
         /\ error_code (content resp) = Some (JInt InternalError))
        \/ (status_code resp = HTTP_400_BAD_REQUEST
            /\ error_code (content resp) = Some (JInt ParseError))
        \/ (status_code resp = HTTP_200_OK
            /\ (error_code (content resp) = Some (JInt InvalidParams)
                \/ error_code (content resp) = Some (JInt MethodNotFound)))
        \/ (status_code resp = HTTP_200_OK
            /\ envelope_error (content resp) = None
            /\ exists result, envelope_result (content resp) = Some result)).
Proof.
  destruct (reply_is_an_answer rt cfg req w) as (resp & Hr & Ha & _).
  exists resp. split; [exact Hr|].
  destruct Ha; (split; [reflexivity|]).
  - left. split; reflexivity.
  - right; left. split; reflexivity.
  - do 3 right. repeat split. now exists result.
  - right; right; left. split; [reflexivity | left; reflexivity].
  - right; right; left. split; [reflexivity | right; reflexivity].
Qed.

(** X2.  With DEBUG off the [data] of every InternalError and of every
    ParseError answer of the call endpoint is null. *)
Theorem no_detail_without_debug (rt : runtime) (cfg : settings)
  (req : request) (w : world) :
  DEBUG cfg = false ->
  exists resp,
    reply (mcp_post rt cfg req) w = Ret resp
    /\ (error_code (content resp) = Some (JInt InternalError)
        \/ error_code (content resp) = Some (JInt ParseError) ->
        error_data (content resp) = Some JNull).
Proof.
  intros Hdebug.
  destruct (reply_is_an_answer rt cfg req w) as (resp & Hr & Ha & _).
  exists resp. split; [exact Hr|].
  destruct Ha; cbn; unfold debug_detail; rewrite ?Hdebug;
    intros [H | H]; (reflexivity || discriminate H).
Qed.

Lemma no_detail_without_debug_witness :
  exists resp,
    reply (mcp_post example_runtime example_settings (BadBody "Expecting value"))
      fresh_world = Ret resp
    /\ (error_code (content resp) = Some (JInt InternalError)
        \/ error_code (content resp) = Some (JInt ParseError) ->
        error_data (content resp) = Some JNull).
Proof.
  apply (no_detail_without_debug example_runtime example_settings
           (BadBody "Expecting value") fresh_world).
  reflexivity.
Defined.

(** ** The [id] of the answer *)

(** X8.  For a validated envelope whose method is not [initialize]:
    when the [id] and the name of the method can be rendered, the answer
    has status 200 and carries the [id] that was sent; when one of them
    cannot (a string with a lone surrogate), the answer is the
    InternalError of the catch-all, with status 500 and the [id] null. *)
Theorem id_round_trips_outside_initialize (rt : runtime) (cfg : settings)
  (kw : dict) (r : MCPRequest) (id : json) (w : world) :
  MCPRequest_init rt (JDict kw) = Ret r ->
  dict_lookup "id" kw = Some id ->
  well_typed_id id = true ->
  rpc_method r <> "initialize" ->
  exists resp,
    reply (mcp_post rt cfg (JsonBody (JDict kw))) w = Ret resp
    /\ (renderable id && encodable (rpc_method r) = true ->
        envelope_id (content resp) = Some id
        /\ status_code resp = HTTP_200_OK)
    /\ (renderable id && encodable (rpc_method r) = false ->
        envelope_id (content resp) = Some JNull
        /\ error_code (content resp) = Some (JInt InternalError)
        /\ status_code resp = HTTP_500_INTERNAL_SERVER_ERROR).
Proof.
  intros Hinit Hid Hty Hm.
  assert (Hrid : rpc_id r = id).
  { cbn [MCPRequest_init] in Hinit.
    destruct (validate_fields rt kw) as [r'|] eqn:Hv; [|discriminate].
    injection Hinit as <-. eapply validated_id_is_request_id; eassumption. }
  destruct (mcp_post_valid rt cfg _ r w Hinit) as (w1 & _ & -> & _).
  destruct (dispatch_settled cfg (rpc_method r) (rpc_id r)
              (params_or_empty (rpc_params r)))
    as (resp & Hd & _ & _ & Hi & Hn).
  rewrite Hrid in Hi, Hn.
  exists resp. split; [apply Hd|]. split.
  - intros H. apply andb_true_iff in H as [H1 H2]. now apply Hi.
  - intros H. destruct (Hn H) as (e & ->). repeat split.
Qed.

Lemma id_round_trips_outside_initialize_witness :
  exists resp,
    reply (mcp_post example_runtime example_settings
             (JsonBody (JDict [("id", JStr "req-9"); ("method", JStr "shutdown")])))
      fresh_world = Ret resp
    /\ (renderable (JStr "req-9") && encodable "shutdown" = true ->
        envelope_id (content resp) = Some (JStr "req-9")
        /\ status_code resp = HTTP_200_OK)
    /\ (renderable (JStr "req-9") && encodable "shutdown" = false ->
        envelope_id (content resp) = Some JNull
        /\ error_code (content resp) = Some (JInt InternalError)
        /\ status_code resp = HTTP_500_INTERNAL_SERVER_ERROR).
Proof.
  apply (id_round_trips_outside_initialize example_runtime example_settings
           [("id", JStr "req-9"); ("method", JStr "shutdown")]
           {| rpc_jsonrpc := "2.0"; rpc_id := JStr "req-9";
              rpc_method := "shutdown"; rpc_params := None |}
           (JStr "req-9") fresh_world);
    try reflexivity.
  discriminate.
Defined.



(** C2, at the call
    [{"jsonrpc": "2.0", "id": 1, "method": "initialize", "params": {}}]:
    the body is a valid envelope with the [id] 1, and the answer carries
    the [id] null. *)
Theorem initialize_reply_drops_the_id (rt : runtime) (cfg : settings)
  (w : world) :
  called_method rt (call "initialize" (JInt 1) (JDict [])) = Some "initialize"
  /\ exists resp,
       reply (mcp_post rt cfg (call "initialize" (JInt 1) (JDict []))) w
       = Ret resp
       /\ envelope_id (content resp) = Some JNull
       /\ envelope_id (content resp) <> Some (JInt 1).
Proof.
  split; [reflexivity|].
  exists (internal_error_response cfg (name_error "true")).
  split; [apply initialize_call_reply|]. split; [reflexivity | discriminate].
Qed.

(** ** Bodies that are rejected *)

(** X7.  A decoded body that fails validation is answered ParseError
    with status 400 and the [id] recovered from the body, when that
    [id] and the detail of the error can be rendered; when they cannot
    (the [id] holds a float that is not finite, or a lone surrogate),
    the answer is the InternalError of the catch-all, with status 500
    and the [id] null. *)
Theorem rejected_body_is_a_parse_error (rt : runtime) (cfg : settings)
  (body : json) (e : exn) (w : world) :
  MCPRequest_init rt body = Raise e ->
  exists resp,
    reply (mcp_post rt cfg (JsonBody body)) w = Ret resp
    /\ (renderable (recovered_id body) && renderable (debug_detail cfg e) = true ->
        error_code (content resp) = Some (JInt ParseError)
        /\ envelope_id (content resp) = Some (recovered_id body)
        /\ status_code resp = HTTP_400_BAD_REQUEST)
    /\ (renderable (recovered_id body) && renderable (debug_detail cfg e) = false ->
        error_code (content resp) = Some (JInt InternalError)
        /\ envelope_id (content resp) = Some JNull
        /\ status_code resp = HTTP_500_INTERNAL_SERVER_ERROR).
Proof.
  intros Hinit.
  destruct (mcp_post_rejected rt cfg body e w Hinit) as [-> _].
  rewrite settle_JSONResponse, renderable_error_envelope.
  change (encodable "Parse error") with true. cbn [andb].
  destruct (renderable (recovered_id body) && renderable (debug_detail cfg e));
    eexists; (split; [reflexivity|]); split; intros H;
    (discriminate H || (repeat split; reflexivity)).
Qed.

Lemma rejected_body_is_a_parse_error_witness :
  exists resp,
    reply (mcp_post example_runtime example_settings
             (JsonBody (JDict [("id", JList [JInt 1]); ("method", JInt 4)])))
      fresh_world = Ret resp
    /\ (renderable
          (recovered_id (JDict [("id", JList [JInt 1]); ("method", JInt 4)]))
        && renderable
             (debug_detail example_settings
                (mk_exn ValidationError "validation error for MCPRequest"))
        = true ->
        error_code (content resp) = Some (JInt ParseError)
        /\ envelope_id (content resp)
           = Some (recovered_id
                     (JDict [("id", JList [JInt 1]); ("method", JInt 4)]))
        /\ status_code resp = HTTP_400_BAD_REQUEST)
    /\ (renderable
          (recovered_id (JDict [("id", JList [JInt 1]); ("method", JInt 4)]))
        && renderable
             (debug_detail example_settings
                (mk_exn ValidationError "validation error for MCPRequest"))
        = false ->
        error_code (content resp) = Some (JInt InternalError)
        /\ envelope_id (content resp) = Some JNull
        /\ status_code resp = HTTP_500_INTERNAL_SERVER_ERROR).
Proof.
  apply (rejected_body_is_a_parse_error example_runtime example_settings
           (JDict [("id", JList [JInt 1]); ("method", JInt 4)])
           (mk_exn ValidationError "validation error for MCPRequest")
           fresh_world).
  reflexivity.
Defined.

(** C3, at a body that is not JSON (the empty body, say): the answer is
    InternalError with status 500, not ParseError. *)
Theorem undecodable_body_is_not_a_parse_error (rt : runtime) (cfg : settings)
  (reason : string) (w : world) :
  exists resp,
    reply (mcp_post rt cfg (BadBody reason)) w = Ret resp
    /\ error_code (content resp) = Some (JInt InternalError)
    /\ error_code (content resp) <> Some (JInt ParseError)
    /\ envelope_id (content resp) = Some JNull
    /\ status_code resp = HTTP_500_INTERNAL_SERVER_ERROR.
Proof.
  exists (internal_error_response cfg (unbound_local_error "body")).
  split; [apply (mcp_post_bad_body rt cfg reason w)|].
  split; [reflexivity|].
  split; [discriminate|]. split; reflexivity.
Qed.

(** ** The session lifecycle *)

(** C4, as stated, fails: the one call [list_tables] sent to a process
    that has seen no [initialize] reaches the backend. *)
Lemma backend_reached_without_initialize :
  ~ lifecycle_enforced example_runtime example_settings fresh_process
      [call "list_tables" (JInt 1) JNull].
Proof.
  intros H.
  destruct (H [] (call "list_tables" (JInt 1) JNull) [] eq_refl)
    as (prior & [] & _).
  vm_compute. discriminate.
Qed.

(** C4, amended.  The handler keeps no lifecycle state: after any
    sequence of earlier calls, with or without an [initialize] or a
    [shutdown] among them, a call of [list_tables], or of a method whose
    required parameter is present, is run against the backend.  It is
    answered with its result when the [id] of the request can be
    rendered, and by the catch-all, after the backend has run, when it
    cannot. *)
Theorem backend_methods_run_in_any_state (rt : runtime) (cfg : settings)
  (history : list request) (p : process) (body : json) (r : MCPRequest) :
  MCPRequest_init rt body = Ret r ->
  rpc_method r = "list_tables"
  \/ (exists field,
        required_parameter (rpc_method r) = Some field
        /\ truthy (dict_get (params_or_empty (rpc_params r)) field) = true) ->
  exists result op,
    backend_calls
      (the_world (fst (post_root rt cfg (JsonBody body) (after rt cfg history p))))
    = (backend_calls (the_world (after rt cfg history p)) ++ [op])%list
    /\ (renderable (rpc_id r) = true ->
        snd (post_root rt cfg (JsonBody body) (after rt cfg history p))
        = Ret (sent (result_envelope (rpc_id r) result) HTTP_200_OK))
    /\ (renderable (rpc_id r) = false ->
        exists e,
          snd (post_root rt cfg (JsonBody body) (after rt cfg history p))
          = Ret (internal_error_response cfg e)).
Proof.
  intros Hinit Hm.
  destruct (post_root_backend rt cfg (JsonBody body) (after rt cfg history p))
    as (w0 & Hw0 & ->).
  rewrite (post_root_answer rt cfg (JsonBody body) (after rt cfg history p) w0).
  destruct (mcp_post_valid rt cfg body r w0 Hinit) as (w1 & Hw1 & -> & ->).
  rewrite <- Hw0, <- Hw1.
  destruct Hm as [Hm | (field & Hf & Ht)].
  - rewrite Hm.
    destruct (dispatch_list_tables cfg (rpc_id r)
                (params_or_empty (rpc_params r)) w1) as [-> ->].
    set (tables := JDict [("tables", str_list ["users"; "products"; "orders"])]).
    assert (Hr : renderable (result_envelope (rpc_id r) tables)
                 = renderable (rpc_id r)).
    { rewrite renderable_result_envelope. apply andb_true_r. }
    destruct (settle_in_try cfg (rpc_id r) _ HTTP_200_OK Hr) as (e & _ & ->).
    exists tables, OpListTables. split; [reflexivity|].
    split; intros ->; [reflexivity | now exists e].
  - destruct (dispatch_with_parameter cfg _ _ (rpc_id r) _ Hf Ht)
      as (result & op & Hres & Hd).
    destruct (Hd w1) as [-> ->].
    assert (Hr : renderable (result_envelope (rpc_id r) result)
                 = renderable (rpc_id r)).
    { rewrite renderable_result_envelope, Hres. apply andb_true_r. }
    destruct (settle_in_try cfg (rpc_id r) _ HTTP_200_OK Hr) as (e & _ & ->).
    exists result, op. split; [reflexivity|].
    split; intros ->; [reflexivity | now exists e].
Qed.

Lemma backend_methods_run_in_any_state_witness :
  exists result op,
    backend_calls
      (the_world
         (fst (post_root example_runtime example_settings
                 (call "query" (JInt 2) (JDict [("query", JStr "SELECT 1")]))
                 (after example_runtime example_settings
                    [call "shutdown" (JInt 1) JNull] fresh_process))))
    = (backend_calls
         (the_world
            (after example_runtime example_settings
               [call "shutdown" (JInt 1) JNull] fresh_process)) ++ [op])%list
    /\ (renderable (JInt 2) = true ->
        snd (post_root example_runtime example_settings
               (call "query" (JInt 2) (JDict [("query", JStr "SELECT 1")]))
               (after example_runtime example_settings
                  [call "shutdown" (JInt 1) JNull] fresh_process))
        = Ret (sent (result_envelope (JInt 2) result) HTTP_200_OK))
    /\ (renderable (JInt 2) = false ->
        exists e,
          snd (post_root example_runtime example_settings
                 (call "query" (JInt 2) (JDict [("query", JStr "SELECT 1")]))
                 (after example_runtime example_settings
                    [call "shutdown" (JInt 1) JNull] fresh_process))
          = Ret (internal_error_response example_settings e)).
Proof.
  apply (backend_methods_run_in_any_state example_runtime example_settings
           [call "shutdown" (JInt 1) JNull] fresh_process
           (JDict [("jsonrpc", JStr "2.0"); ("id", JInt 2);
                   ("method", JStr "query");
                   ("params", JDict [("query", JStr "SELECT 1")])])
           {| rpc_jsonrpc := "2.0"; rpc_id := JInt 2; rpc_method := "query";
              rpc_params := Some [("query", JStr "SELECT 1")] |}).
  - reflexivity.
  - right. exists "query". split; reflexivity.
Defined.


(** ** Required parameters *)

Lemma absent_parameter_is_lacking (params : dict) (field : string) :
  dict_lookup field params = None -> lacks_nonempty params field.
Proof. unfold lacks_nonempty, dict_get. now intros ->. Qed.

Lemma empty_parameter_is_lacking (params : dict) (field : string) :
  dict_lookup field params = Some (JStr "") -> lacks_nonempty params field.
Proof. unfold lacks_nonempty, dict_get. now intros ->. Qed.

(** C5, as stated, fails: the call [{"id": "\ud800", "method": "query"}]
    passes validation and lacks [query], and is not answered
    InvalidParams: the response that echoes the [id] cannot be encoded,
    and the catch-all answers InternalError under the [id] null. *)
Lemma missing_parameter_under_a_surrogate_id :
  ~ missing_parameter_is_reported example_runtime example_settings
      (JDict [("id", JStr lone_surrogate); ("method", JStr "query")]).
Proof.
  intros H.
  destruct (H {| rpc_jsonrpc := "2.0"; rpc_id := JStr lone_surrogate;
                 rpc_method := "query"; rpc_params := None |}
              "query" fresh_world eq_refl eq_refl eq_refl)
    as (resp & Hr & Hc & _).
  vm_compute in Hr. injection Hr as <-. vm_compute in Hc. discriminate Hc.
Qed.

(** C5, amended.  A [discover_data] call without a non-empty [table],
    and a [prepare_query] or [query] call without a non-empty [query],
    never reaches the backend.  When the [id] of the request can be
    rendered it is answered InvalidParams under that [id], with the name
    of the parameter in [data.detail]; when it cannot, it is answered
    InternalError with status 500 under the [id] null. *)
Theorem missing_parameter_is_invalid_params (rt : runtime) (cfg : settings)
  (kw : dict) (r : MCPRequest) (field : string) (w : world) :
  MCPRequest_init rt (JDict kw) = Ret r ->
  (rpc_method r = "discover_data" /\ field = "table")
  \/ ((rpc_method r = "prepare_query" \/ rpc_method r = "query")
      /\ field = "query") ->
  lacks_nonempty (params_or_empty (rpc_params r)) field ->
  backend_calls_after (mcp_post rt cfg (JsonBody (JDict kw))) w
  = backend_calls w
  /\ (forall id, dict_lookup "id" kw = Some id -> well_typed_id id = true ->
                 rpc_id r = id)
  /\ exists resp,
       reply (mcp_post rt cfg (JsonBody (JDict kw))) w = Ret resp
       /\ (renderable (rpc_id r) = true ->
           status_code resp = HTTP_200_OK
           /\ error_code (content resp) = Some (JInt InvalidParams)
           /\ envelope_id (content resp) = Some (rpc_id r)
           /\ error_data (content resp)
              = Some (JDict [("detail",
                              JStr ("Missing required parameter: " ++ field))]))
       /\ (renderable (rpc_id r) = false ->
           status_code resp = HTTP_500_INTERNAL_SERVER_ERROR
           /\ error_code (content resp) = Some (JInt InternalError)
           /\ envelope_id (content resp) = Some JNull).
Proof.
  intros Hinit Hm Hlack.
  assert (Hf : required_parameter (rpc_method r) = Some field).
  { destruct Hm as [[-> ->] | [[-> | ->] ->]]; reflexivity. }
  destruct (mcp_post_valid rt cfg _ r w Hinit) as (w1 & Hw1 & -> & ->).
  destruct (dispatch_missing_parameter cfg _ _ (rpc_id r) _ w1 Hf Hlack)
    as [-> ->].
  split; [exact Hw1|]. split.
  { intros id Hid Hty. cbn [MCPRequest_init] in Hinit.
    destruct (validate_fields rt kw) as [r'|] eqn:Hv; [|discriminate].
    injection Hinit as <-. eapply validated_id_is_request_id; eassumption. }
  pose proof (renderable_invalid_params _ _ (rpc_id r) Hf) as Hr.
  destruct (settle_in_try cfg (rpc_id r) _ HTTP_200_OK Hr) as (e & _ & Hs).
  unfold invalid_params. rewrite Hs.
  destruct (renderable (rpc_id r)); eexists; (split; [reflexivity|]);
    split; intros H; (discriminate H || (repeat split; reflexivity)).
Qed.

Lemma missing_parameter_is_invalid_params_witness :
  backend_calls_after
    (mcp_post example_runtime example_settings
       (call "prepare_query" (JInt 3) (JDict [("query", JStr "")]))) fresh_world
  = backend_calls fresh_world
  /\ (forall id,
        dict_lookup "id"
          [("jsonrpc", JStr "2.0"); ("id", JInt 3);
           ("method", JStr "prepare_query");
           ("params", JDict [("query", JStr "")])] = Some id ->
        well_typed_id id = true -> JInt 3 = id)
  /\ exists resp,
       reply (mcp_post example_runtime example_settings
                (call "prepare_query" (JInt 3) (JDict [("query", JStr "")])))
         fresh_world
       = Ret resp
       /\ (renderable (JInt 3) = true ->
           status_code resp = HTTP_200_OK
           /\ error_code (content resp) = Some (JInt InvalidParams)
           /\ envelope_id (content resp) = Some (JInt 3)
           /\ error_data (content resp)
              = Some (JDict [("detail",
                              JStr ("Missing required parameter: " ++ "query"))]))
       /\ (renderable (JInt 3) = false ->
           status_code resp = HTTP_500_INTERNAL_SERVER_ERROR
           /\ error_code (content resp) = Some (JInt InternalError)
           /\ envelope_id (content resp) = Some JNull).
Proof.
  apply (missing_parameter_is_invalid_params example_runtime example_settings
           [("jsonrpc", JStr "2.0"); ("id", JInt 3);
            ("method", JStr "prepare_query");
            ("params", JDict [("query", JStr "")])]
           {| rpc_jsonrpc := "2.0"; rpc_id := JInt 3;
              rpc_method := "prepare_query";
              rpc_params := Some [("query", JStr "")] |}
           "query" fresh_world).
  - reflexivity.
  - right. split; [left|]; reflexivity.
  - reflexivity.
Defined.

Lemma dispatch_result_ignores_parameter (cfg : settings) (method field : string)
  (id : json) (p1 p2 : dict) (w1 w2 : world) :
  required_parameter method = Some field ->
  truthy (dict_get p1 field) = true ->
  truthy (dict_get p2 field) = true ->
  reply (dispatch cfg method id p1) w1 = reply (dispatch cfg method id p2) w2.
Proof.
  by_required_parameter method; intros H1 H2;
    unfold reply, dispatch; cbn [String.eqb Ascii.eqb Bool.eqb];
    cbv [try_except bind ret lift backend_failed logger invalid_params
         Backend.discover_data Backend.prepare_query Backend.query backend
         fst snd];
    rewrite H1, H2; cbv [negb fst snd]; split_renders; reflexivity.
Qed.

(** X5.  The stub backend does not look at the parameter: two calls of
    the same method under the same [id], each with some non-empty value
    (of any type) for the required parameter, get the same answer. *)
Theorem backend_results_ignore_the_parameter (rt : runtime) (cfg : settings)
  (b1 b2 : json) (r1 r2 : MCPRequest) (field : string) (w1 w2 : world) :
  MCPRequest_init rt b1 = Ret r1 ->
  MCPRequest_init rt b2 = Ret r2 ->
  rpc_method r1 = rpc_method r2 ->
  rpc_id r1 = rpc_id r2 ->
  required_parameter (rpc_method r1) = Some field ->
  truthy (dict_get (params_or_empty (rpc_params r1)) field) = true ->
  truthy (dict_get (params_or_empty (rpc_params r2)) field) = true ->
  reply (mcp_post rt cfg (JsonBody b1)) w1
  = reply (mcp_post rt cfg (JsonBody b2)) w2.
Proof.
  intros H1 H2 Hm Hi Hf Ht1 Ht2.
  destruct (mcp_post_valid rt cfg b1 r1 w1 H1) as (w1' & _ & -> & _).
  destruct (mcp_post_valid rt cfg b2 r2 w2 H2) as (w2' & _ & -> & _).
  rewrite <- Hm, <- Hi. f_equal.
  now apply (dispatch_result_ignores_parameter cfg _ field).
Qed.

Lemma backend_results_ignore_the_parameter_witness :
  reply (mcp_post example_runtime example_settings
           (call "query" (JInt 5) (JDict [("query", JStr "SELECT 1")])))
    fresh_world
  = reply (mcp_post example_runtime example_settings
             (call "query" (JInt 5) (JDict [("query", JList [JInt 7])])))
      fresh_world.
Proof.
  apply (backend_results_ignore_the_parameter example_runtime example_settings
           (JDict [("jsonrpc", JStr "2.0"); ("id", JInt 5);
                   ("method", JStr "query");
                   ("params", JDict [("query", JStr "SELECT 1")])])
           (JDict [("jsonrpc", JStr "2.0"); ("id", JInt 5);
                   ("method", JStr "query");
                   ("params", JDict [("query", JList [JInt 7])])])
           {| rpc_jsonrpc := "2.0"; rpc_id := JInt 5; rpc_method := "query";
              rpc_params := Some [("query", JStr "SELECT 1")] |}
           {| rpc_jsonrpc := "2.0"; rpc_id := JInt 5; rpc_method := "query";
              rpc_params := Some [("query", JList [JInt 7])] |}
           "query" fresh_world fresh_world); reflexivity.
Defined.

(** X6.  Of a valid envelope the handler uses the method, the [id] and
    the params with null and the empty mapping taken as one: the
    [jsonrpc] string and any further member of the body change nothing
    in the answer. *)
Theorem reply_depends_on_method_id_params (rt : runtime) (cfg : settings)
  (b1 b2 : json) (r1 r2 : MCPRequest) (w1 w2 : world) :
  MCPRequest_init rt b1 = Ret r1 ->
  MCPRequest_init rt b2 = Ret r2 ->
  rpc_method r1 = rpc_method r2 ->
  rpc_id r1 = rpc_id r2 ->
  params_or_empty (rpc_params r1) = params_or_empty (rpc_params r2) ->
  reply (mcp_post rt cfg (JsonBody b1)) w1
  = reply (mcp_post rt cfg (JsonBody b2)) w2.
Proof.
  intros H1 H2 Hm Hi Hp.
  destruct (mcp_post_valid rt cfg b1 r1 w1 H1) as (w1' & _ & -> & _).
  destruct (mcp_post_valid rt cfg b2 r2 w2 H2) as (w2' & _ & -> & _).
  rewrite <- Hm, <- Hi, <- Hp.
  destruct (dispatch_settled cfg (rpc_method r1) (rpc_id r1)
              (params_or_empty (rpc_params r1))) as (resp & Hd & _).
  now rewrite !Hd.
Qed.

Lemma reply_depends_on_method_id_params_witness :
  reply (mcp_post example_runtime example_settings
           (JsonBody (JDict [("jsonrpc", JStr "1.0"); ("id", JStr "a");
                             ("method", JStr "list_tables"); ("params", JNull);
                             ("trace", JBool true)])))
    fresh_world
  = reply (mcp_post example_runtime example_settings
             (JsonBody (JDict [("id", JStr "a"); ("method", JStr "list_tables");
                               ("params", JDict [])])))
      fresh_world.
Proof.
  apply (reply_depends_on_method_id_params example_runtime example_settings
           (JDict [("jsonrpc", JStr "1.0"); ("id", JStr "a");
                   ("method", JStr "list_tables"); ("params", JNull);
                   ("trace", JBool true)])
           (JDict [("id", JStr "a"); ("method", JStr "list_tables");
                   ("params", JDict [])])
           {| rpc_jsonrpc := "1.0"; rpc_id := JStr "a";
              rpc_method := "list_tables"; rpc_params := None |}
           {| rpc_jsonrpc := "2.0"; rpc_id := JStr "a";
              rpc_method := "list_tables"; rpc_params := Some [] |}
           fresh_world fresh_world); reflexivity.
Defined.

(** ** [initialize] *)

(** Every valid [initialize] call is answered InternalError, with the
    [id] null and no [result]. *)
Lemma initialize_is_answered_internal_error (rt : runtime) (cfg : settings)
  (body : json) (r : MCPRequest) (w : world) :
  MCPRequest_init rt body = Ret r ->
  rpc_method r = "initialize" ->
  exists e,
    reply (mcp_post rt cfg (JsonBody body)) w
    = Ret (internal_error_response cfg e).
Proof.
  intros Hinit Hm.
  destruct (mcp_post_valid rt cfg _ r w Hinit) as (w1 & _ & -> & _).
  rewrite Hm.
  destruct (dispatch_initialize cfg (rpc_id r) (params_or_empty (rpc_params r)))
    as (e & He & Hd).
  exists e. destruct (Hd w1) as [-> _]. now apply settle_plain.
Qed.

(** C7, at the call
    [{"jsonrpc": "2.0", "id": 1, "method": "initialize", "params": {}}]
    sent twice: both answers are the error InternalError, and neither
    has a [result]. *)
Theorem initialize_twice_fails_twice (rt : runtime) (cfg : settings)
  (p : process) :
  replies rt cfg [call "initialize" (JInt 1) (JDict []);
                  call "initialize" (JInt 1) (JDict [])] p
  = [Ret (internal_error_response cfg (name_error "true"));
     Ret (internal_error_response cfg (name_error "true"))]
  /\ envelope_result (content (internal_error_response cfg (name_error "true")))
     = None
  /\ error_code (content (internal_error_response cfg (name_error "true")))
     = Some (JInt InternalError).
Proof.
  split; [|split; reflexivity].
  rewrite !replies_cons.
  rewrite !(post_root_answer rt cfg _ _ (the_world p)).
  rewrite !initialize_call_reply. reflexivity.
Qed.

(** ** Statelessness *)

(** X3.  Every call, however it ends, draws exactly one uuid, reads the
    clock exactly twice and only adds to the log; its last log record
    is the one of the [finally] clause, with the uuid of the call and
    the time between the two readings of the clock. *)
Theorem every_call_is_accounted_for (rt : runtime) (cfg : settings)
  (req : request) (w : world) :
  let w' := fst (mcp_post rt cfg req w) in
  uuid_source w' = uuid_source w
  /\ uuid_drawn w' = S (uuid_drawn w)
  /\ clock w' = clock w
  /\ clock_read w' = S (S (clock_read w))
  /\ exists before,
       log w' = (before ++ [processed_record w])%list
       /\ extends (log w) before.
Proof. cbv zeta. apply mcp_post_accounts. Qed.

(** C10.  The answer to a call is decided by the body of the call and
    the settings: two calls with the same body get the same answer
    wherever they stand in the sequence of calls the process serves, and
    that answer is the one the handler gives in any world whatever (any
    uuid source, clock, log and earlier calls). *)
Theorem dispatch_is_stateless (rt : runtime) (cfg : settings)
  (reqs : list request) (p : process) (i j : nat) (req : request) :
  nth_error reqs i = Some req ->
  nth_error reqs j = Some req ->
  nth_error (replies rt cfg reqs p) i = nth_error (replies rt cfg reqs p) j
  /\ forall w',
       nth_error (replies rt cfg reqs p) i
       = Some (reply (mcp_post rt cfg req) w').
Proof.
  intros Hi Hj. split.
  - rewrite (nth_reply rt cfg reqs i req p (the_world p) Hi).
    rewrite (nth_reply rt cfg reqs j req p (the_world p) Hj). reflexivity.
  - intros w'. now apply nth_reply.
Qed.

Lemma dispatch_is_stateless_witness :
  nth_error
    (replies example_runtime example_settings
       [call "list_tables" (JInt 7) JNull; call "shutdown" (JInt 8) JNull;
        call "list_tables" (JInt 7) JNull] fresh_process) 0
  = nth_error
      (replies example_runtime example_settings
         [call "list_tables" (JInt 7) JNull; call "shutdown" (JInt 8) JNull;
          call "list_tables" (JInt 7) JNull] fresh_process) 2
  /\ forall w',
       nth_error
         (replies example_runtime example_settings
            [call "list_tables" (JInt 7) JNull; call "shutdown" (JInt 8) JNull;
             call "list_tables" (JInt 7) JNull] fresh_process) 0
       = Some (reply (mcp_post example_runtime example_settings
                        (call "list_tables" (JInt 7) JNull)) w').
Proof.
  apply (dispatch_is_stateless example_runtime example_settings
           [call "list_tables" (JInt 7) JNull; call "shutdown" (JInt 8) JNull;
            call "list_tables" (JInt 7) JNull]
           fresh_process 0 2 (call "list_tables" (JInt 7) JNull));
    reflexivity.
Defined.

(* ===================================================================== *)
(** * The middleware *)
(* ===================================================================== *)

(** X10.  Behind the middleware the call endpoint gives the answer of
    [mcp_post] unchanged; the middleware's own error answer is never
    used for it.  The request is counted once under the labels
    [POST] and [/], no other counter moves, and one latency is observed. *)
Theorem post_root_passes_the_answer_through (rt : runtime) (cfg : settings)
  (req : request) (p : process) :
  exists resp dt,
    snd (post_root rt cfg req p) = Ret resp
    /\ (forall w, reply (mcp_post rt cfg req) w = Ret resp)
    /\ request_count (the_metrics (fst (post_root rt cfg req p))) "POST" "/"
       = S (request_count (the_metrics p) "POST" "/")
    /\ (forall m e,
          String.eqb m "POST" && String.eqb e "/" = false ->
          request_count (the_metrics (fst (post_root rt cfg req p))) m e
          = request_count (the_metrics p) m e)
    /\ request_latency (the_metrics (fst (post_root rt cfg req p)))
       = (request_latency (the_metrics p) ++ [("POST", "/", dt)])%list.
Proof. apply post_root_through. Qed.

(** X11.  When the rest of the application raises, the middleware
    answers an ordinary exception with status 500 and the error
    InternalError under the [id] null, as far as that answer can be
    rendered, lets any other exception (a cancellation) through, and in
    every case leaves the metrics as they were: a request that fails is
    neither counted nor timed. *)
Theorem middleware_answers_a_failure (cfg : settings) (Response : Type)
  (status_code_of : Response -> Z) (json_response : http_response -> Response)
  (method path : string) (call_next : M Response) (e : exn) (p : process) :
  (forall w, snd (call_next w) = Raise e) ->
  snd (add_timing_and_logging cfg Response status_code_of json_response
         method path call_next p)
  = (if is_Exception e then
       if renderable (debug_detail cfg e) then
         Ret (json_response
                (sent
                   (error_envelope JNull InternalError "Internal server error"
                      (debug_detail cfg e))
                   HTTP_500_INTERNAL_SERVER_ERROR))
       else Raise (render_error (debug_detail cfg e))
     else Raise e)
  /\ the_metrics
       (fst (add_timing_and_logging cfg Response status_code_of json_response
               method path call_next p))
     = the_metrics p.
Proof.
  intros Hraise.
  unfold add_timing_and_logging, pbind, ptry_except, in_world, pret.
  cbn [time_time uuid4 logger the_world the_metrics].
  match goal with
  | |- context [call_next ?w1] =>
      pose proof (Hraise w1) as H1; destruct (call_next w1) as [w2 r]
  end.
  cbn [snd] in H1. subst r.
  destruct (is_Exception e); [|split; reflexivity].
  unfold lift. cbn [the_world the_metrics].
  unfold JSONResponse.
  assert (Hr : renderable
                 (error_envelope JNull (-32603) "Internal server error"
                    (debug_detail cfg e))
               = renderable (debug_detail cfg e)).
  { rewrite renderable_error_envelope. reflexivity. }
  assert (He : render_error
                 (error_envelope JNull (-32603) "Internal server error"
                    (debug_detail cfg e))
               = render_error (debug_detail cfg e)).
  { unfold render_error, error_envelope. cbn [floats_finite forallb snd].
    now rewrite !andb_true_r. }
  rewrite Hr, He.
  destruct (renderable (debug_detail cfg e)); split; reflexivity.
Qed.

Lemma middleware_answers_a_failure_witness :
  snd (add_timing_and_logging example_settings http_response status_code
         (fun r => r) "GET" "/health" (failing_handler connection_reset)
         fresh_process)
  = (if is_Exception connection_reset then
       if renderable (debug_detail example_settings connection_reset) then
         Ret (sent
                (error_envelope JNull InternalError "Internal server error"
                   (debug_detail example_settings connection_reset))
                HTTP_500_INTERNAL_SERVER_ERROR)
       else Raise (render_error (debug_detail example_settings connection_reset))
     else Raise connection_reset)
  /\ the_metrics
       (fst (add_timing_and_logging example_settings http_response status_code
               (fun r => r) "GET" "/health" (failing_handler connection_reset)
               fresh_process))
     = the_metrics fresh_process.
Proof.
  apply (middleware_answers_a_failure example_settings http_response
           status_code (fun r => r) "GET" "/health"
           (failing_handler connection_reset) connection_reset fresh_process).
  reflexivity.
Defined.

(** X16.  A process that serves [n] calls behind the middleware gives
    [n] answers, draws [2 n] uuids from its source (one in the
    middleware and one in the handler for each call), reads the clock
    [5 n] times, only adds to its log, counts [n] requests under [POST]
    and [/] and observes [n] latencies. *)
Theorem serving_accounts_for_every_call (rt : runtime) (cfg : settings)
  (reqs : list request) (p : process) :
  length (replies rt cfg reqs p) = length reqs
  /\ uuid_source (the_world (after rt cfg reqs p)) = uuid_source (the_world p)
  /\ uuid_drawn (the_world (after rt cfg reqs p))
     = (uuid_drawn (the_world p) + 2 * length reqs)%nat
  /\ clock_read (the_world (after rt cfg reqs p))
     = (clock_read (the_world p) + 5 * length reqs)%nat
  /\ extends (log (the_world p)) (log (the_world (after rt cfg reqs p)))
  /\ request_count (the_metrics (after rt cfg reqs p)) "POST" "/"
     = (request_count (the_metrics p) "POST" "/" + length reqs)%nat
  /\ length (request_latency (the_metrics (after rt cfg reqs p)))
     = (length (request_latency (the_metrics p)) + length reqs)%nat.
Proof.
  split; [apply replies_length|].
  revert p. induction reqs as [| req rest IH]; intros p.
  - cbn. rewrite !Nat.add_0_r. repeat split. apply extends_refl.
  - rewrite after_cons.
    destruct (IH (fst (post_root rt cfg req p)))
      as (B1 & B2 & B3 & B4 & B5 & B6).
    destruct (post_root_accounts rt cfg req p) as (A1 & A2 & A3 & A4 & A5).
    destruct (post_root_through rt cfg req p)
      as (resp & dt & _ & _ & C1 & _ & C2).
    rewrite B1, B2, B3, B5, B6, A1, A2, A4, C1, C2, length_app.
    cbn [length]. repeat split; try lia.
    eapply extends_trans; eassumption.
Qed.

(* ===================================================================== *)
(** * The event stream *)
(* ===================================================================== *)

Lemma exception_is_not_cancellation (e : exn) :
  is_Exception e = true -> is_CancelledError e = false.
Proof.
  unfold is_Exception, is_CancelledError.
  destruct (exn_class_of e); (reflexivity || discriminate).
Qed.

Lemma trailing_failures_snoc (attempts : list attempt) (a : attempt) :
  trailing_failures (attempts ++ [a])
  = if failed a then S (trailing_failures attempts) else O.
Proof. unfold trailing_failures. rewrite rev_app_distr. reflexivity. Qed.

Lemma three_in_a_row_grows (attempts : list attempt) (a : attempt) :
  three_in_a_row attempts -> three_in_a_row (attempts ++ [a]).
Proof.
  intros (before & later & -> & H).
  exists before, (later ++ [a])%list. split; [now rewrite app_assoc | exact H].
Qed.

Lemma three_in_a_row_now (attempts : list attempt) :
  (3 <= trailing_failures attempts)%nat -> three_in_a_row attempts.
Proof.
  intros H. exists attempts, []. split; [now rewrite app_nil_r | exact H].
Qed.

Lemma three_in_a_row_snoc (attempts : list attempt) (a : attempt) :
  three_in_a_row (attempts ++ [a]) ->
  three_in_a_row attempts \/ (3 <= trailing_failures (attempts ++ [a]))%nat.
Proof.
  intros (before & later & Heq & H).
  destruct later as [| x later] using rev_ind.
  - right. rewrite app_nil_r in Heq. now rewrite Heq.
  - left. rewrite app_assoc in Heq. apply app_inj_tail in Heq as [Heq _].
    exists before, later. split; [exact Heq | exact H].
Qed.

Lemma no_three_in_a_row_nil : ~ three_in_a_row [].
Proof.
  intros (before & later & Heq & H).
  symmetry in Heq. apply app_eq_nil in Heq as [-> _].
  cbv in H. lia.
Qed.

Section StreamFacts.
Variable cfg : settings.
Variable json_dumps : json -> string.
Variable utcnow_isoformat : nat -> string.
Variable client_id : string.

Local Abbreviation go := (run cfg json_dumps utcnow_isoformat client_id).

Lemma capabilities_response_raises :
  capabilities_response (module_globals cfg) = Raise (name_error "true").
Proof. reflexivity. Qed.

Lemma run_app (s : stream) (l1 l2 : list signal) :
  go s (l1 ++ l2) = go (go s l1) l2.
Proof. apply fold_left_app. Qed.

(** A generator that has terminated stays as it is. *)
Lemma run_finished (s : stream) (sigs : list signal) :
  state s = Finished -> go s sigs = s.
Proof.
  intros H. induction sigs as [| sig sigs IH]; [reflexivity|].
  unfold run in *. cbn [fold_left]. unfold step at 2.
  rewrite H. exact IH.
Qed.

(** The two lemmas that follow are about the code of the loop of lines
    241-260 taken alone, started by hand at its head.  The generator as
    it is never gets there: see [run_before_capabilities] below. *)

(** One turn of the loop body, from the counter [missed]: a heartbeat
    that goes out sets the counter to 0; a failure adds 1 to it, and
    ends the generator when that makes 3. *)
Lemma run_attempt (s : stream) (missed beats : nat) (a : attempt) :
  state s = Suspended (AtSleep missed beats) ->
  transient a = true ->
  exists beats',
    state (go s (attempt_signals a))
    = if failed a then
        if (max_missed_heartbeats <=? S missed)%nat then Finished
        else Suspended (AtSleep (S missed) beats')
      else Suspended (AtSleep 0 beats').
Proof.
  intros Hs Ht.
  destruct a as [| e | e]; cbn [attempt_signals failed transient] in *;
    unfold run; cbn [fold_left];
    unfold step; rewrite Hs; cbn [resume emit goto state].
  - eexists; reflexivity.
  - unfold heartbeat_failed.
    rewrite (exception_is_not_cancellation e Ht), Ht.
    exists beats. destruct (max_missed_heartbeats <=? S missed)%nat; reflexivity.
  - unfold heartbeat_failed.
    rewrite (exception_is_not_cancellation e Ht), Ht.
    exists (S beats).
    destruct (max_missed_heartbeats <=? S missed)%nat; reflexivity.
Qed.

(** The loop after any number of turns: it has ended if three failures
    in a row have occurred, and otherwise it is waiting with the counter
    at the number of failures in a row just seen. *)
Lemma heartbeat_loop_invariant (s : stream) (beats : nat)
  (attempts : list attempt) :
  state s = Suspended (AtSleep 0 beats) ->
  forallb transient attempts = true ->
  (three_in_a_row attempts
   /\ state (go s (signals_of attempts)) = Finished)
  \/ (~ three_in_a_row attempts
      /\ (trailing_failures attempts < 3)%nat
      /\ exists beats',
           state (go s (signals_of attempts))
           = Suspended (AtSleep (trailing_failures attempts) beats')).
Proof.
  intros Hs. induction attempts as [| a attempts IH] using rev_ind; intros Ht.
  - right. split; [exact no_three_in_a_row_nil|].
    split; [cbv; lia|]. exists beats. exact Hs.
  - rewrite forallb_app in Ht. apply andb_true_iff in Ht as [Ht Ha].
    cbn [forallb] in Ha. rewrite andb_true_r in Ha.
    unfold signals_of in *. rewrite flat_map_app, run_app.
    cbn [flat_map]. rewrite app_nil_r.
    destruct (IH Ht) as [[H3 Hf] | (Hn3 & Hlt & beats' & Hb)].
    + left. split; [now apply three_in_a_row_grows|].
      now rewrite run_finished.
    + destruct (run_attempt _ _ _ a Hb Ha) as (beats'' & Hstep).
      rewrite Hstep. pose proof (trailing_failures_snoc attempts a) as Hsnoc.
      destruct (failed a).
      * unfold max_missed_heartbeats.
        destruct (3 <=? S (trailing_failures attempts))%nat eqn:Hle.
        -- left. apply Nat.leb_le in Hle. split; [|reflexivity].
           apply three_in_a_row_now. rewrite Hsnoc. exact Hle.
        -- right. apply Nat.leb_gt in Hle. split; [|split].
           ++ intros H. apply three_in_a_row_snoc in H as [H | H];
                [exact (Hn3 H) | rewrite Hsnoc in H; lia].
           ++ rewrite Hsnoc. exact Hle.
           ++ exists beats''. now rewrite Hsnoc.
      * right. split; [|split].
        -- intros H. apply three_in_a_row_snoc in H as [H | H];
             [exact (Hn3 H) | rewrite Hsnoc in H; lia].
        -- rewrite Hsnoc. lia.
        -- exists beats''. now rewrite Hsnoc.
Qed.
End StreamFacts.

(** ** What the stream emits *)

Section StreamOrder.
Variable cfg : settings.
Variable json_dumps : json -> string.
Variable utcnow_isoformat : nat -> string.
Variable client_id : string.

Local Abbreviation go := (run cfg json_dumps utcnow_isoformat client_id).
Local Abbreviation next := (step cfg json_dumps utcnow_isoformat client_id).

Lemma step_before_capabilities (s : stream) (sig : signal) :
  before_capabilities client_id s ->
  before_capabilities client_id (step cfg json_dumps utcnow_isoformat client_id s sig).
Proof.
  intros [Hst Hch]. unfold step.
  destruct (state s) as [[| | | | |] | |] eqn:Hs; try contradiction;
    try (split; [rewrite Hs; exact I | exact Hch]);
    destruct sig as [| e]; cbn [resume];
    try rewrite capabilities_response_raises;
    unfold stream_error, terminate, goto, emit, record;
    try destruct (is_Exception _);
    (split; [exact I|]); cbn [chunks]; try exact Hch;
    intros chunk Hin; apply in_app_or in Hin as [Hin | [<- | []]];
    eauto.
Qed.

Lemma run_before_capabilities (sigs : list signal) (s : stream) :
  before_capabilities client_id s ->
  before_capabilities client_id (run cfg json_dumps utcnow_isoformat client_id s sigs).
Proof.
  revert s. induction sigs as [| sig sigs IH]; intros s H; [exact H|].
  unfold run. cbn [fold_left]. apply IH. now apply step_before_capabilities.
Qed.

Lemma step_ready_then_error (s : stream) (sig : signal) :
  ready_then_error client_id s -> ready_then_error client_id (next s sig).
Proof.
  unfold ready_then_error, step.
  destruct (state s) as [[| | | | |] | |] eqn:Hs; try contradiction;
    intros H; try (rewrite Hs; exact H);
    destruct sig as [| e]; cbn [resume];
    try rewrite capabilities_response_raises;
    unfold stream_error, terminate, goto, emit, record;
    try destruct (is_Exception _); cbn [state chunks];
    try rewrite H; cbn [app]; eauto.
Qed.

Lemma run_ready_then_error (sigs : list signal) (s : stream) :
  ready_then_error client_id s -> ready_then_error client_id (go s sigs).
Proof.
  revert s. induction sigs as [| sig sigs IH]; intros s H; [exact H|].
  unfold run. cbn [fold_left]. apply IH. now apply step_ready_then_error.
Qed.

Lemma not_in_snoc (r x : log_record) (l : list log_record) :
  ~ In r l -> x <> r -> ~ In r (l ++ [x]).
Proof.
  intros Hl Hx Hin. apply in_app_or in Hin as [Hin | [Hin | []]]; auto.
Qed.

Lemma step_termination_logged (s : stream) (sig : signal) :
  termination_logged client_id s -> termination_logged client_id (next s sig).
Proof.
  unfold termination_logged, terminated, step.
  destruct (state s) as [at_ | | e0] eqn:Hs; intros H;
    [|rewrite Hs; exact H ..].
  destruct at_, sig as [| e]; cbn [resume];
    try rewrite capabilities_response_raises;
    unfold stream_error, heartbeat_failed, terminate, goto, emit, record;
    repeat match goal with
           | |- context [is_Exception ?e] => destruct (is_Exception e)
           | |- context [is_CancelledError ?e] => destruct (is_CancelledError e)
           | |- context [(?a <=? ?b)%nat] => destruct (a <=? b)%nat
           end;
    cbn [state stream_log];
    try (eexists; split; [reflexivity|]);
    repeat (apply not_in_snoc; [|discriminate]); exact H.
Qed.

Lemma run_termination_logged (sigs : list signal) (s : stream) :
  termination_logged client_id s -> termination_logged client_id (go s sigs).
Proof.
  revert s. induction sigs as [| sig sigs IH]; intros s H; [exact H|].
  unfold run. cbn [fold_left]. apply IH. now apply step_termination_logged.
Qed.
End StreamOrder.


(** The two displays of the capabilities are the same expression but for
    the [id]: in any global scope they raise the same exception or give
    the same value. *)
Lemma capability_displays_agree (globals : list (string * pyobject)) :
  capabilities_response globals = initialize_content globals (JInt 1).
Proof. reflexivity. Qed.

(** C6, on the generator as it is.  Whatever the consumer does, the
    generator is never in the heartbeat loop, and the counter of missed
    heartbeats never leaves 0; for a consumer that takes every chunk the
    session has closed at the third resumption, with no heartbeat sent
    and none failed. *)
Theorem session_closes_without_a_missed_heartbeat (cfg : settings)
  (json_dumps : json -> string) (utcnow_isoformat : nat -> string)
  (client_id : string) (sigs more : list signal) :
  in_loop (event_stream cfg json_dumps utcnow_isoformat client_id sigs) = false
  /\ missed_so_far (event_stream cfg json_dumps utcnow_isoformat client_id sigs)
     = 0%nat
  /\ state (event_stream cfg json_dumps utcnow_isoformat client_id
              (Resume :: Resume :: Resume :: more))
     = Finished.
Proof.
  assert (Hclosed : forall l,
            state (event_stream cfg json_dumps utcnow_isoformat client_id
                     (Resume :: Resume :: Resume :: l)) = Finished).
  { intros l.
    change (Resume :: Resume :: Resume :: l)
      with ([Resume; Resume; Resume] ++ l)%list.
    unfold event_stream. rewrite run_app, run_finished by reflexivity.
    reflexivity. }
  assert (H : before_capabilities client_id
                (event_stream cfg json_dumps utcnow_isoformat client_id sigs)).
  { apply run_before_capabilities. split; [exact I|].
    intros c [<- | []]. now left. }
  destruct H as [Hst _]. unfold in_loop, missed_so_far.
  split; [|split].
  - destruct (state _) as [[| | | | |] | |]; (reflexivity || contradiction).
  - destruct (state _) as [[| | | | |] | |]; (reflexivity || contradiction).
  - apply Hclosed.
Qed.

(** C8, for a consumer that takes every chunk: the second chunk of the
    stream is an error event, not the capabilities, and after it the
    stream ends; no heartbeat follows. *)
Theorem second_chunk_is_an_error_event (cfg : settings)
  (json_dumps : json -> string) (utcnow_isoformat : nat -> string)
  (client_id : string) (more : list signal) :
  chunks (event_stream cfg json_dumps utcnow_isoformat client_id
            (Resume :: Resume :: Resume :: more))
  = [ready_chunk client_id; error_chunk (name_error "true")]
  /\ state (event_stream cfg json_dumps utcnow_isoformat client_id
              (Resume :: Resume :: Resume :: more))
     = Finished.
Proof.
  change (Resume :: Resume :: Resume :: more)
    with ([Resume; Resume; Resume] ++ more)%list.
  unfold event_stream. rewrite run_app, run_finished by reflexivity.
  split; reflexivity.
Qed.

(** C9, on the code as it is: neither path produces the capabilities.
    The display of the stream raises [NameError], and so does the one of
    [initialize]; whatever the consumer does, the stream yields nothing
    but its ready event and error events. *)
Theorem capabilities_are_never_produced (cfg : settings)
  (json_dumps : json -> string) (utcnow_isoformat : nat -> string)
  (client_id : string) (request_id_from_client : json) (sigs : list signal)
  (chunk : string) :
  capabilities_response (module_globals cfg) = Raise (name_error "true")
  /\ initialize_content (module_globals cfg) request_id_from_client
     = Raise (name_error "true")
  /\ (In chunk (chunks (event_stream cfg json_dumps utcnow_isoformat client_id
                          sigs)) ->
      chunk = ready_chunk client_id \/ exists e, chunk = error_chunk e).
Proof.
  split; [reflexivity|]. split; [reflexivity|].
  apply (run_before_capabilities cfg json_dumps utcnow_isoformat client_id sigs).
  split; [exact I|]. intros c [<- | []]. now left.
Qed.

(** X12.  Whatever the consumer does, the stream is the ready event
    alone, or the ready event followed by exactly one error event. *)
Theorem stream_is_ready_then_at_most_one_error (cfg : settings)
  (json_dumps : json -> string) (utcnow_isoformat : nat -> string)
  (client_id : string) (sigs : list signal) :
  chunks (event_stream cfg json_dumps utcnow_isoformat client_id sigs)
  = [ready_chunk client_id]
  \/ exists e,
       chunks (event_stream cfg json_dumps utcnow_isoformat client_id sigs)
       = [ready_chunk client_id; error_chunk e].
Proof.
  assert (H : ready_then_error client_id
                (event_stream cfg json_dumps utcnow_isoformat client_id sigs)).
  { apply run_ready_then_error. reflexivity. }
  unfold ready_then_error in H.
  destruct (state _) as [[| | | | |] | |]; tauto.
Qed.

(** X15.  The [finally] clause runs on every way out of the generator
    and on none other: a generator that has terminated (by returning or
    by an exception that leaves it) has logged its termination as its
    last record and only once; one that is suspended has not logged it. *)
Theorem termination_is_logged_once (cfg : settings)
  (json_dumps : json -> string) (utcnow_isoformat : nat -> string)
  (client_id : string) (s : stream) (sigs : list signal) :
  terminated s = false ->
  ~ In (termination_record client_id) (stream_log s) ->
  termination_logged client_id
    (run cfg json_dumps utcnow_isoformat client_id s sigs).
Proof.
  intros Ht Hn. apply run_termination_logged.
  unfold termination_logged. rewrite Ht. exact Hn.
Qed.

Lemma termination_is_logged_once_witness :
  termination_logged "c1"
    (run example_settings example_dumps example_utcnow "c1" (started "c1")
       [Resume; Throw (mk_exn CancelledError "")]).
Proof.
  apply (termination_is_logged_once example_settings example_dumps
           example_utcnow "c1" (started "c1")
           [Resume; Throw (mk_exn CancelledError "")]).
  - reflexivity.
  - intros [].
Defined.
